(** * Contrato de Sangue: the actor's derived data and skill rolls

    A shallow embedding of [ContractoActor] (module/contracto-actor.js):
    [prepareDerivedData], [#scheduleHuntEvent], [rollSkill] and
    [#executeSkillRoll], together with the configuration object of
    module/contrato-de-sangue.js.  The actor is a record that the methods
    rewrite; every call of a collaborator (notifications, chat, calendar,
    console) is recorded in a trace of effects, and what the collaborators
    hand back (the clock, the two dice, the player's answer to the dialog) is
    an argument of the function that asks for it.  With them come
    [ContractoItem.prepareData] (module/contracto-item.js) and the listener
    that [ContractoCharacterSheet.activateListeners]
    (module/contracto-character-sheet.js) puts on the attribute inputs. *)

From stdpp Require Import base decidable option list gmap strings.
From Stdlib Require Import ZArith Lia.

Local Open Scope Z_scope.

(** ** JavaScript values *)

(** Numbers.  The fields of the sheet hold whole numbers; [NaN] is what the
    coercions produce when they are given anything else.  Fractions and the
    infinities are not represented, and sums and differences are the exact
    ones: those of the source as long as the numbers stay below 2^53 in
    magnitude, where its doubles start to round. *)
Inductive number : Type :=
  | Int (z : Z)
  | NaN.

(** The values the methods read.  A field of the stored record holds one of
    the first five; [VInherited] is what indexing an object gives for a name
    it has no key for but inherits from [Object.prototype]: one of its
    functions, or the prototype itself for [__proto__]. *)
Inductive jsval : Type :=
  | VUndefined
  | VNull
  | VBool (b : bool)
  | VNumber (n : number)
  | VString (s : string)
  | VInherited.

#[global] Instance number_eq_dec : EqDecision number.
Proof. solve_decision. Defined.

#[global] Instance jsval_eq_dec : EqDecision jsval.
Proof. solve_decision. Defined.

Module Js.

(** [a + b] on numbers. *)
Definition add (a b : number) : number :=
  match a, b with
  | Int x, Int y => Int (x + y)
  | _, _ => NaN
  end.

(** [a - b] on numbers. *)
Definition sub (a b : number) : number :=
  match a, b with
  | Int x, Int y => Int (x - y)
  | _, _ => NaN
  end.

(** [Math.max(a, b)]: [NaN] as soon as one argument is. *)
Definition Math_max (a b : number) : number :=
  match a, b with
  | Int x, Int y => Int (Z.max x y)
  | _, _ => NaN
  end.

(** [Math.min(a, b)]. *)
Definition Math_min (a b : number) : number :=
  match a, b with
  | Int x, Int y => Int (Z.min x y)
  | _, _ => NaN
  end.

(** [Math.ceil(d / 2)] for a whole [d]: the ceiling is minus the floor of
    the opposite, and [Z.div] rounds down. *)
Definition Math_ceil_half (d : Z) : Z := - ((- d) / 2).

(** [a > b], [a >= b], [a <= b]: false whenever [NaN] is involved. *)
Definition gt (a b : number) : bool :=
  match a, b with
  | Int x, Int y => bool_decide (x > y)
  | _, _ => false
  end.

Definition ge (a b : number) : bool :=
  match a, b with
  | Int x, Int y => bool_decide (x >= y)
  | _, _ => false
  end.

Definition le (a b : number) : bool :=
  match a, b with
  | Int x, Int y => bool_decide (x <= y)
  | _, _ => false
  end.

(** [a !== b] on numbers: [NaN] differs from everything, itself included. *)
Definition strict_neq (a b : number) : bool :=
  match a, b with
  | Int x, Int y => bool_decide (x ≠ y)
  | _, _ => true
  end.

(** [typeof v === 'number']; [NaN] is of type number. *)
Definition typeof_number (v : jsval) : bool :=
  match v with
  | VNumber _ => true
  | _ => false
  end.

(** [v ?? d]. *)
Definition nullish (v d : jsval) : jsval :=
  match v with
  | VUndefined | VNull => d
  | _ => v
  end.

(** Truthiness, for [v || d] and [!v]. *)
Definition truthy (v : jsval) : bool :=
  match v with
  | VUndefined | VNull => false
  | VBool b => b
  | VNumber (Int z) => bool_decide (z ≠ 0)
  | VNumber NaN => false
  | VString s => bool_decide (s ≠ EmptyString)
  | VInherited => true
  end.

(** [v || d]. *)
Definition or (v d : jsval) : jsval := if truthy v then v else d.

(** The names every plain object inherits from [Object.prototype]. *)
Definition Object_prototype : list string :=
  [ "constructor"; "hasOwnProperty"; "isPrototypeOf"; "propertyIsEnumerable";
    "toLocaleString"; "toString"; "valueOf"; "__proto__"; "__defineGetter__";
    "__defineSetter__"; "__lookupGetter__"; "__lookupSetter__" ].

Definition inherited (key : string) : bool :=
  existsb (String.eqb key) Object_prototype.

(** [object[key]] on a plain object used as a map: the value under a key of
    its own, else what it inherits under that name, else [undefined]. *)
Inductive property (A : Type) : Type :=
  | Own (x : A)
  | Inherited
  | Missing.

Arguments Own {A} x.
Arguments Inherited {A}.
Arguments Missing {A}.

Definition lookup {A : Type} (object : gmap string A) (key : string) : property A :=
  match object !! key with
  | Some x => Own x
  | None => if inherited key then Inherited else Missing
  end.

(** [object[key]] when the object holds values. *)
Definition get (object : gmap string jsval) (key : string) : jsval :=
  match lookup object key with
  | Own v => v
  | Inherited => VInherited
  | Missing => VUndefined
  end.

End Js.

(** ** The record *)

(** [system.attributes] *)
Module Attributes.
Record t : Type := mk {
  humanidade : jsval;
  bestialidade : jsval;
  mortalidade : jsval
}.
End Attributes.

(** [system.reservaDados] *)
Module ReservaDados.
Record t : Type := mk {
  current : jsval;
  max : jsval
}.
End ReservaDados.

(** The five literals [huntFrequency] takes. *)
Inductive HuntFrequency : Type :=
  | none
  | weekly
  | twice_weekly
  | daily
  | constant.

#[global] Instance HuntFrequency_eq_dec : EqDecision HuntFrequency.
Proof. solve_decision. Defined.

(** [system.mortalidade] *)
Module Mortalidade.
Record t : Type := mk {
  penalty : Z;
  hunt : HuntFrequency
}.
End Mortalidade.

(** [actor.system], with its sub-objects [attributes], [skills] and
    [reservaDados] in place, possibly without any field: a field that is
    not there reads as [undefined].  [prepareDerivedData] makes an empty
    object of a sub-object that is missing before it reads it, so that for
    it the two are one; [rollSkill] and [#executeSkillRoll] read the fields
    of the sub-objects as they find them, and a system that lacks one, on
    which they would raise, is not among the values of this record.
    [system.mortalidade] is written and never read, and is [None] until
    the first preparation. *)
Module System.
Record t : Type := mk {
  attributes : Attributes.t;
  skills : gmap string jsval;
  reservaDados : ReservaDados.t;
  mortalidade : option Mortalidade.t
}.
End System.

(** One element of the [history] flag. *)
Inductive HistoryEntry : Type :=
  | MortalidadeEntry (timestamp : Z) (level : HuntFrequency) (mortalidade : number)
  | RollEntry (timestamp : Z) (skill : string) (total : number)
      (humanidade bestialidade : number) (mort : jsval).

(** [actor.flags['contrato-de-sangue']]: a flag never set is [None], the
    history never set is the empty array. *)
Module Flags.
Record t : Type := mk {
  lastMortalityLevel : option HuntFrequency;
  history : list HistoryEntry
}.
End Flags.

Module Actor.
Record t : Type := mk {
  system : System.t;
  flags : Flags.t
}.

(** The paths the methods read and write, from the actor. *)
Definition humanidade (this : t) : jsval :=
  Attributes.humanidade (System.attributes (system this)).
Definition bestialidade (this : t) : jsval :=
  Attributes.bestialidade (System.attributes (system this)).
Definition mortalidade (this : t) : jsval :=
  Attributes.mortalidade (System.attributes (system this)).
Definition current (this : t) : jsval :=
  ReservaDados.current (System.reservaDados (system this)).
Definition max (this : t) : jsval :=
  ReservaDados.max (System.reservaDados (system this)).
Definition skill (this : t) (skillKey : string) : option jsval :=
  match Js.lookup (System.skills (system this)) skillKey with
  | Js.Own v => Some v
  | Js.Inherited => Some VInherited
  | Js.Missing => None
  end.
Definition derived (this : t) : option Mortalidade.t :=
  System.mortalidade (system this).
Definition lastMortalityLevel (this : t) : option HuntFrequency :=
  Flags.lastMortalityLevel (flags this).
Definition history (this : t) : list HistoryEntry :=
  Flags.history (flags this).
End Actor.


(** ** Configuration and collaborators *)

Inductive SkillType : Type :=
  | physical
  | mental
  | social
  | combat.

(** An entry of [CONFIG.Contrato.skills]. *)
Module SkillConfig.
Record t : Type := mk {
  label : string;
  type : SkillType
}.
End SkillConfig.

(** An entry of [CONFIG.Contrato.modifiers]. *)
Module Modifier.
Record t : Type := mk {
  value : Z;
  label : string
}.
End Modifier.

(** [CONFIG.Contrato].  [skills] is read as the finite map of the keys the
    object was given. *)
Module Contrato.
Record t : Type := mk {
  skills : gmap string SkillConfig.t;
  modifiers : list Modifier.t
}.
End Contrato.

(** The object the [init] hook of contrato-de-sangue.js installs.  A label
    is the localisation key the hook looks up. *)
Definition CONFIG_Contrato : Contrato.t :=
  Contrato.mk
    (list_to_map
       [ ("atletismo", SkillConfig.mk "CONTRATO.SKILLS.ATLETISMO" physical);
         ("briga", SkillConfig.mk "CONTRATO.SKILLS.BRIGA" physical);
         ("conducao", SkillConfig.mk "CONTRATO.SKILLS.CONDUTCAO" physical);
         ("furtividade", SkillConfig.mk "CONTRATO.SKILLS.FURTIVIDADE" physical);
         ("sobrevivencia", SkillConfig.mk "CONTRATO.SKILLS.SOBREVIVENCIA" physical);
         ("computadores", SkillConfig.mk "CONTRATO.SKILLS.COMPUTADORES" mental);
         ("investigacao", SkillConfig.mk "CONTRATO.SKILLS.INVESTIGACAO" mental);
         ("medicina", SkillConfig.mk "CONTRATO.SKILLS.MEDICINA" mental);
         ("ocultismo", SkillConfig.mk "CONTRATO.SKILLS.OCULTISMO" mental);
         ("ciencias", SkillConfig.mk "CONTRATO.SKILLS.CIENCIAS" mental);
         ("empatia", SkillConfig.mk "CONTRATO.SKILLS.EMPATIA" social);
         ("expressao", SkillConfig.mk "CONTRATO.SKILLS.EXPRESSAO" social);
         ("intimidacao", SkillConfig.mk "CONTRATO.SKILLS.INTIMIDACAO" social);
         ("persuasao", SkillConfig.mk "CONTRATO.SKILLS.PERSUASAO" social);
         ("subterfugio", SkillConfig.mk "CONTRATO.SKILLS.SUBTERFUGIO" social);
         ("armasBrancas", SkillConfig.mk "CONTRATO.SKILLS.ARMAS_BRANCAS" combat);
         ("armasDeFogo", SkillConfig.mk "CONTRATO.SKILLS.ARMAS_DE_FOGO" combat);
         ("defesa", SkillConfig.mk "CONTRATO.SKILLS.DEFESA" combat) ])
    [ Modifier.mk 3 "Equipamento perfeito / condições ideais";
      Modifier.mk 1 "Boa preparação / equipamento adequado";
      Modifier.mk 0 "Condições normais";
      Modifier.mk (-1) "Condições adversas / equipamento inadequado";
      Modifier.mk (-3) "Condições terríveis / sem equipamento";
      Modifier.mk (-2) "Pressa extrema";
      Modifier.mk (-2) "Ferimentos graves";
      Modifier.mk (-1) "Distração significativa" ].

(** A date of the Simple Calendar module. *)
Module Date.
Record t : Type := mk {
  year : Z;
  month : Z;
  day : Z
}.
End Date.

(** [game.modules.get('foundryvtt-simple-calendar')]: [None] when the module
    is not installed.  [currentDate] is [None] when the API has no such
    function; [addEvent_throws] tells whether [api.addEvent] raises. *)
Module SimpleCalendar.
Record api_t : Type := mk_api {
  currentDate : option Date.t;
  addEvent_throws : bool
}.
Record t : Type := mk {
  active : bool;
  api : option api_t
}.
End SimpleCalendar.

(** The two rejections of [rollSkill], as shown to the user. *)
Inductive Notification : Type :=
  | UnknownSkill (skillKey : string)
  | NoResourceAvailable (skillLabel : string).

Inductive ConsoleWarning : Type :=
  | CalendarNotFound
  | CalendarAddEventFailed.

(** The content of the chat message of a roll: the roll of the d12, the
    rating, which button was pressed and what the spent die contributes, the
    situational modifier and the total.  [skillLabel] is
    [CONFIG.Contrato.skills[skillKey].label]. *)
Module ChatMessage.
Record t : Type := mk {
  skillLabel : string;
  d12 : Z;
  skillVal : number;
  umbral : bool;
  d6Value : Z;
  situationalMod : Z;
  total : number
}.
End ChatMessage.

(** What the methods ask of their collaborators, in the order they ask. *)
Inductive Effect : Type :=
  | NotificationsWarn (n : Notification)
  | ConsoleWarn (w : ConsoleWarning)
  | CalendarAddEvent (date : Date.t) (frequency : HuntFrequency)
  | DialogRender (skillLabel : string)
  | ChatMessageCreate (m : ChatMessage.t).

(** What the player does with the dialog of [rollSkill]: the button pressed
    and the modifier selected at that moment. *)
Module Answer.
Record t : Type := mk {
  umbral : bool;
  situationalMod : Z
}.
End Answer.

(** What the collaborators hand back in the course of one resolved roll: the
    totals of [new Roll('1d6')] and [new Roll('1d12')], and the two readings
    of [Date.now()], the one of the preparation that [this.update] sets off
    and the one of the roll's own history entry. *)
Module Draw.
Record t : Type := mk {
  d6 : Z;
  d12 : Z;
  now_update : Z;
  now : Z
}.
End Draw.

(** ** Items *)

(** An item (module/contracto-item.js): its type, its name and its
    [system] object, read as the finite map of the keys it was given.  A
    key it has not reads as [undefined]. *)
Module Item.
Record t : Type := mk {
  type : string;
  name : string;
  system : gmap string jsval
}.

(** [data.key] *)
Definition get (data : gmap string jsval) (key : string) : jsval :=
  default VUndefined (data !! key).

(** [ContractoItem.prepareData()] *)
Definition prepareData (this : t) : t :=
  let data := system this in
  let data := <["type" := VString (type this)]> data in
  let data := <["name" := VString (name this)]> data in
  let data := <["description" := Js.or (get data "description") (VString "")]> data in
  let data :=
    if decide (type this = "power") then
      let data := <["activation" := Js.or (get data "activation") (VString "ação")]> data in
      <["cost" := Js.or (get data "cost") (VNumber (Int 0))]> data
    else data in
  let data :=
    if decide (type this = "advantage") then
      <["bonus" := Js.or (get data "bonus") (VString "")]> data
    else data in
  mk (type this) (name this) data.
End Item.

(** ** The methods of [ContractoActor] *)

Section ContractoActor.

(** The engine's reading of a string as a number, [CONFIG.Contrato], and
    [game.modules.get('foundryvtt-simple-calendar')]. *)
Variable StringToNumber : string → number.
Variable CONFIG : Contrato.t.
Variable simpleCalendar : option SimpleCalendar.t.

(** [Number(v)], and the coercion of an operand of [-] and [<=]. *)
Definition Number (v : jsval) : number :=
  match v with
  | VUndefined => NaN
  | VNull => Int 0
  | VBool true => Int 1
  | VBool false => Int 0
  | VNumber n => n
  | VString s => StringToNumber s
  | VInherited => NaN
  end.

(** The chain of tests on [mort] in [prepareDerivedData]: the pair
    [(penalty, huntFrequency)] it leaves. *)
Definition mortalityTier (mort : number) : Z * HuntFrequency :=
  if Js.ge mort (Int 3) && Js.le mort (Int 5) then (1, weekly)
  else if Js.ge mort (Int 6) && Js.le mort (Int 8) then (2, twice_weekly)
  else if Js.ge mort (Int 9) && Js.le mort (Int 11) then (3, daily)
  else if Js.ge mort (Int 12) then (4, constant)
  else (0, none).

(** [#scheduleHuntEvent(frequency)] *)
Definition scheduleHuntEvent (frequency : HuntFrequency) : list Effect :=
  match simpleCalendar with
  | None => [ConsoleWarn CalendarNotFound]
  | Some scModule =>
      match SimpleCalendar.active scModule, SimpleCalendar.api scModule with
      | true, Some api =>
          let currentDate :=
            match SimpleCalendar.currentDate api with
            | Some d => d
            | None => Date.mk 0 0 0
            end in
          let deltaDays :=
            match frequency with
            | weekly => 7
            | twice_weekly => 3
            | daily => 1
            | constant => 0
            | none => 0
            end in
          let nextDate :=
            Date.mk (Date.year currentDate) (Date.month currentDate)
              (Date.day currentDate + deltaDays) in
          CalendarAddEvent nextDate frequency ::
            (if SimpleCalendar.addEvent_throws api
             then [ConsoleWarn CalendarAddEventFailed] else [])
      | _, _ => [ConsoleWarn CalendarNotFound]
      end
  end.

(** [prepareDerivedData()], with [now] for [Date.now()]. *)
Definition prepareDerivedData (now : Z) (this : Actor.t) : Actor.t * list Effect :=
  let data := Actor.system this in
  let attributes := System.attributes data in
  let humanidade :=
    Number (Js.nullish (Attributes.humanidade attributes) (VNumber (Int 6))) in
  let bestialidade0 :=
    Number (Js.nullish (Attributes.bestialidade attributes) (VNumber (Int 6))) in
  let mortalidade :=
    Number (Js.nullish (Attributes.mortalidade attributes) (VNumber (Int 0))) in
  let total := Js.add humanidade bestialidade0 in
  let bestialidade :=
    if Js.strict_neq total (Int 12)
    then Js.Math_max (Int 0) (Js.sub (Int 12) humanidade)
    else bestialidade0 in
  let max := Js.add bestialidade (Int 1) in
  let current :=
    match ReservaDados.current (System.reservaDados data) with
    | VNumber c => if Js.gt c max then VNumber max else VNumber c
    | _ => VNumber max
    end in
  let '(penalty, huntFrequency) := mortalityTier mortalidade in
  let data' :=
    System.mk
      (Attributes.mk (VNumber humanidade) (VNumber bestialidade) (VNumber mortalidade))
      (System.skills data)
      (ReservaDados.mk current (VNumber max))
      (Some (Mortalidade.mk penalty huntFrequency)) in
  let flags := Actor.flags this in
  if decide (Flags.lastMortalityLevel flags ≠ Some huntFrequency) then
    (Actor.mk data'
       (Flags.mk (Some huntFrequency)
          (Flags.history flags ++ [MortalidadeEntry now huntFrequency mortalidade])),
     if decide (huntFrequency ≠ none) then scheduleHuntEvent huntFrequency else [])
  else (Actor.mk data' flags, []).

(** [this.update({'system.attributes.bestialidade': b, 'system.attributes.humanidade': h})]:
    the two fields are written and the actor is prepared again, as it is
    after every update. *)
Definition update (now : Z) (this : Actor.t) (newBestialidade newHumanidade : number)
  : Actor.t * list Effect :=
  let data := Actor.system this in
  let attributes := System.attributes data in
  prepareDerivedData now
    (Actor.mk
       (System.mk
          (Attributes.mk (VNumber newHumanidade) (VNumber newBestialidade)
             (Attributes.mortalidade attributes))
          (System.skills data) (System.reservaDados data) (System.mortalidade data))
       (Actor.flags this)).

(** [reserva.current = v] *)
Definition set_current (this : Actor.t) (v : jsval) : Actor.t :=
  let data := Actor.system this in
  Actor.mk
    (System.mk (System.attributes data) (System.skills data)
       (ReservaDados.mk v (ReservaDados.max (System.reservaDados data)))
       (System.mortalidade data))
    (Actor.flags this).

(** [this.setFlag('contrato-de-sangue', 'history', history)] *)
Definition set_history (this : Actor.t) (history : list HistoryEntry) : Actor.t :=
  Actor.mk (Actor.system this)
    (Flags.mk (Flags.lastMortalityLevel (Actor.flags this)) history).

(** The label of what [CONFIG.Contrato.skills[skillKey]] gave, as it reads
    in the texts it is put into: a member inherited from [Object.prototype]
    has no [label], and what is put into the text is "undefined". *)
Definition label_text (skillConfig : Js.property SkillConfig.t) : string :=
  match skillConfig with
  | Js.Own config => SkillConfig.label config
  | Js.Inherited | Js.Missing => "undefined"
  end.

(** [#executeSkillRoll(skillKey, umbral, situationalMod)].  The result is
    [None] when reading [CONFIG.Contrato.skills[skillKey].label] raises,
    [CONFIG.Contrato.skills[skillKey]] being [undefined]: the pool and the
    attributes have been written by then. *)
Definition executeSkillRoll (this : Actor.t) (skillKey : string) (umbral : bool)
    (situationalMod : Z) (w : Draw.t) : Actor.t * list Effect * option number :=
  let system := Actor.system this in
  let skillVal :=
    Number (Js.or (Js.get (System.skills system) skillKey) (VNumber (Int 0))) in
  let human := Number (Attributes.humanidade (System.attributes system)) in
  let bestia := Number (Attributes.bestialidade (System.attributes system)) in
  let reserva := System.reservaDados system in
  let this1 :=
    set_current this
      (VNumber (Js.Math_max (Int 0)
                  (Js.sub (Number (ReservaDados.current reserva)) (Int 1)))) in
  let d6Value := if umbral then Draw.d6 w else Js.Math_ceil_half (Draw.d6 w) in
  let '(this2, updated) :=
    if umbral then
      let newBestialidade := Js.Math_min (Int 11) (Js.add bestia (Int 1)) in
      let newHumanidade := Js.Math_max (Int 0) (Js.sub (Int 12) newBestialidade) in
      update (Draw.now_update w) this1 newBestialidade newHumanidade
    else (this1, []) in
  let total :=
    Js.add (Js.add (Js.add (Int (Draw.d12 w)) skillVal) (Int d6Value))
      (Int situationalMod) in
  match Js.lookup (Contrato.skills CONFIG) skillKey with
  | Js.Missing => (this2, updated, None)
  | skillConfig =>
      let chatData :=
        ChatMessage.mk (label_text skillConfig) (Draw.d12 w) skillVal umbral
          d6Value situationalMod total in
      let history :=
        Flags.history (Actor.flags this2) ++
          [RollEntry (Draw.now w) skillKey total human bestia
             (Attributes.mortalidade (System.attributes (Actor.system this2)))] in
      (set_history this2 history, updated ++ [ChatMessageCreate chatData], Some total)
  end.

(** [rollSkill(skillKey)].  [answer] is [None] when the player closes the
    dialog without pressing a button.  The result is the value the promise
    resolves with, [None] when the method returns early or the dialog is
    dismissed. *)
Definition rollSkill (this : Actor.t) (skillKey : string) (answer : option Answer.t)
    (w : Draw.t) : Actor.t * list Effect * option number :=
  match Js.lookup (Contrato.skills CONFIG) skillKey with
  | Js.Missing => (this, [NotificationsWarn (UnknownSkill skillKey)], None)
  | skillConfig =>
      let skillLabel := label_text skillConfig in
      let current := ReservaDados.current (System.reservaDados (Actor.system this)) in
      if Js.le (Number current) (Int 0) then
        (this, [NotificationsWarn (NoResourceAvailable skillLabel)], None)
      else
        match answer with
        | None => (this, [DialogRender skillLabel], None)
        | Some ans =>
            let '(this', effects, total) :=
              executeSkillRoll this skillKey (Answer.umbral ans)
                (Answer.situationalMod ans) w in
            (this', DialogRender skillLabel :: effects, total)
        end
  end.

(** [this.actor.update({['system.attributes.' + attr]: value})]: the field is
    written and the actor is prepared again.  An attribute other than the
    three the methods read is not part of the record. *)
Definition update_attribute (now : Z) (this : Actor.t) (attr : string) (value : number)
  : Actor.t * list Effect :=
  let data := Actor.system this in
  let attributes := System.attributes data in
  let attributes' :=
    if decide (attr = "humanidade") then
      Attributes.mk (VNumber value) (Attributes.bestialidade attributes)
        (Attributes.mortalidade attributes)
    else if decide (attr = "bestialidade") then
      Attributes.mk (Attributes.humanidade attributes) (VNumber value)
        (Attributes.mortalidade attributes)
    else if decide (attr = "mortalidade") then
      Attributes.mk (Attributes.humanidade attributes)
        (Attributes.bestialidade attributes) (VNumber value)
    else attributes in
  prepareDerivedData now
    (Actor.mk
       (System.mk attributes' (System.skills data) (System.reservaDados data)
          (System.mortalidade data))
       (Actor.flags this)).

(** The listener [ContractoCharacterSheet.activateListeners] puts on the
    attribute inputs of an editable sheet: [attr] is [input.dataset.attr]
    and [input] is [input.value]. *)
Definition attribute_change (now : Z) (this : Actor.t) (attr input : string)
  : Actor.t * list Effect :=
  let value := Number (VString input) in
  let value := match value with NaN => Int 0 | Int _ => value end in
  update_attribute now this attr value.

(** The readings [prepareDerivedData] takes of the three attributes, and the
    value it settles [bestialidade] on. *)
Definition read_humanidade (this : Actor.t) : number :=
  Number (Js.nullish (Actor.humanidade this) (VNumber (Int 6))).

Definition read_mortalidade (this : Actor.t) : number :=
  Number (Js.nullish (Actor.mortalidade this) (VNumber (Int 0))).

Definition settled_bestialidade (this : Actor.t) : number :=
  let bestialidade0 := Number (Js.nullish (Actor.bestialidade this) (VNumber (Int 6))) in
  if Js.strict_neq (Js.add (read_humanidade this) bestialidade0) (Int 12)
  then Js.Math_max (Int 0) (Js.sub (Int 12) (read_humanidade this))
  else bestialidade0.

Definition settled_current (this : Actor.t) : jsval :=
  let max := Js.add (settled_bestialidade this) (Int 1) in
  match Actor.current this with
  | VNumber c => if Js.gt c max then VNumber max else VNumber c
  | _ => VNumber max
  end.

(** The hunt frequency a preparation of [this] computes. *)
Definition computed_hunt (this : Actor.t) : HuntFrequency :=
  (mortalityTier (read_mortalidade this)).2.

(** A run of preparations: before each one the stored data is whatever the
    outside left there, and the flags are those of the preparation before. *)
Fixpoint invocations (flags : Flags.t) (steps : list (Z * System.t))
  : Flags.t * list Effect :=
  match steps with
  | [] => (flags, [])
  | (now, data) :: rest =>
      let '(this', effects) := prepareDerivedData now (Actor.mk data flags) in
      let '(flags', effects') := invocations (Actor.flags this') rest in
      (flags', effects ++ effects')
  end.


(** The actor after the first statement of [#executeSkillRoll], one die of
    the pool spent, and the pair it is at after the branch on [umbral]. *)
Definition spent (this : Actor.t) : Actor.t :=
  set_current this
    (VNumber (Js.Math_max (Int 0) (Js.sub (Number (Actor.current this)) (Int 1)))).

Definition after_branch (this : Actor.t) (umbral : bool) (w : Draw.t)
  : Actor.t * list Effect :=
  if umbral then
    let newBestialidade :=
      Js.Math_min (Int 11) (Js.add (Number (Actor.bestialidade this)) (Int 1)) in
    update (Draw.now_update w) (spent this) newBestialidade
      (Js.Math_max (Int 0) (Js.sub (Int 12) newBestialidade))
  else (spent this, []).

(** An actor a preparation has nothing to do on, at any time. *)
Definition settled (this : Actor.t) : Prop :=
  ∀ now, prepareDerivedData now this = (this, []).

(** ** The specification's side *)

(** The table of the data model: corruption range, penalty, hunt frequency. *)
Inductive corruption_table : Z → Z → HuntFrequency → Prop :=
  | row_0_2 c : 0 ≤ c ≤ 2 → corruption_table c 0 none
  | row_3_5 c : 3 ≤ c ≤ 5 → corruption_table c 1 weekly
  | row_6_8 c : 6 ≤ c ≤ 8 → corruption_table c 2 twice_weekly
  | row_9_11 c : 9 ≤ c ≤ 11 → corruption_table c 3 daily
  | row_12 c : 12 ≤ c → corruption_table c 4 constant.

(** The invariant of the attribute pair: the sum is 12 and bestiality lies
    in [0, 11]. *)
Definition balanced (this : Actor.t) : Prop :=
  match Actor.humanidade this, Actor.bestialidade this with
  | VNumber (Int h), VNumber (Int b) => h + b = 12 ∧ 0 ≤ b ≤ 11
  | _, _ => False
  end.

(** The invariant of the pool: [current] lies in [0, max]. *)
Definition reserve_within_bounds (this : Actor.t) : Prop :=
  match Actor.current this, Actor.max this with
  | VNumber (Int c), VNumber (Int mx) => 0 ≤ c ≤ mx
  | _, _ => False
  end.

(** The threshold entries a run must leave: one for each preparation whose
    frequency differs from the last one recorded.  An observation is the
    clock, the frequency and the corruption of one preparation. *)
Fixpoint crossings (last : option HuntFrequency)
    (observed : list (Z * HuntFrequency * number)) : list HistoryEntry :=
  match observed with
  | [] => []
  | (now, frequency, mort) :: rest =>
      if decide (last = Some frequency) then crossings last rest
      else MortalidadeEntry now frequency mort :: crossings (Some frequency) rest
  end.

(** The reminder that goes with a threshold entry: none for the frequency
    none, and none for a roll entry. *)
Definition reminder (entry : HistoryEntry) : list Effect :=
  match entry with
  | MortalidadeEntry _ frequency _ =>
      if decide (frequency ≠ none) then scheduleHuntEvent frequency else []
  | RollEntry _ _ _ _ _ _ => []
  end.

(** What one preparation of the stored [data] shows: its clock, and the
    frequency and corruption it computes. *)
Definition observe (step : Z * System.t) : Z * HuntFrequency * number :=
  let this := Actor.mk step.2 (Flags.mk None []) in
  (step.1, computed_hunt this, read_mortalidade this).

(** The snapshot a roll entry would hold if it were taken when the entry is
    appended: the attributes of the actor as the roll leaves it. *)
Definition snapshot_at_append (this' : Actor.t) : Prop :=
  ∃ timestamp skill total,
    last (Actor.history this') =
      Some (RollEntry timestamp skill total
              (Number (Actor.humanidade this')) (Number (Actor.bestialidade this'))
              (Actor.mortalidade this')).


(** The effects a preparation may have: a call of the calendar or a line on
    the console. *)
Definition calendar_or_console (e : Effect) : Prop :=
  match e with
  | ConsoleWarn _ | CalendarAddEvent _ _ => True
  | _ => False
  end.

(** ** Sheets for the examples *)

(** A stored sheet with whole attributes [h], [b], [m] and the pool [c]:
    a rating of 3 in briga, nothing derived yet, no flag set. *)
Definition sheet (h b m : Z) (c : jsval) : Actor.t :=
  Actor.mk
    (System.mk
       (Attributes.mk (VNumber (Int h)) (VNumber (Int b)) (VNumber (Int m)))
       {[ "briga" := VNumber (Int 3) ]}
       (ReservaDados.mk c VUndefined)
       None)
    (Flags.mk None []).

(** The same sheet as a preparation leaves it when its corruption is below
    the first threshold: the pool has its maximum, the frequency is recorded
    and its entry is in the history. *)
Definition prepared_sheet (h b m c : Z) : Actor.t :=
  Actor.mk
    (System.mk
       (Attributes.mk (VNumber (Int h)) (VNumber (Int b)) (VNumber (Int m)))
       {[ "briga" := VNumber (Int 3) ]}
       (ReservaDados.mk (VNumber (Int c)) (VNumber (Int (b + 1))))
       (Some (Mortalidade.mk 0 none)))
    (Flags.mk (Some none) [MortalidadeEntry 0 none (Int m)]).

(** A reading of strings for the examples, none of which stores a string. *)
Definition no_strings : string → number := λ _, NaN.

(** ** Arithmetic of the coercions *)

Lemma Math_ceil_half_spec (d : Z) :
  2 * Js.Math_ceil_half d - 1 ≤ d ≤ 2 * Js.Math_ceil_half d.
Proof.
  unfold Js.Math_ceil_half.
  pose proof (Z.div_mod (- d) 2 ltac:(lia)) as Hdm.
  pose proof (Z.mod_pos_bound (- d) 2 ltac:(lia)) as Hb.
  lia.
Qed.

Lemma Number_VNumber (n : number) : Number (VNumber n) = n.
Proof. reflexivity. Qed.

Lemma gt_false_iff (x y : Z) : Js.gt (Int x) (Int y) = false ↔ x ≤ y.
Proof.
  unfold Js.gt. rewrite bool_decide_eq_false. lia.
Qed.

Lemma gt_irrefl (n : number) : Js.gt n n = false.
Proof.
  destruct n as [z|]; [|reflexivity]. apply gt_false_iff. lia.
Qed.

(** The tier of a whole corruption, by intervals. *)
Lemma mortalityTier_Int (mort : Z) :
  mortalityTier (Int mort) =
    if decide (mort < 3) then (0, none)
    else if decide (mort ≤ 5) then (1, weekly)
    else if decide (mort ≤ 8) then (2, twice_weekly)
    else if decide (mort ≤ 11) then (3, daily)
    else (4, constant).
Proof.
  unfold mortalityTier, Js.ge, Js.le.
  repeat case_bool_decide; repeat case_decide; simpl; try reflexivity; lia.
Qed.

(** ** What a preparation writes *)

Lemma prepareDerivedData_system (now : Z) (this : Actor.t) :
  Actor.system (prepareDerivedData now this).1 =
    System.mk
      (Attributes.mk (VNumber (read_humanidade this))
         (VNumber (settled_bestialidade this)) (VNumber (read_mortalidade this)))
      (System.skills (Actor.system this))
      (ReservaDados.mk (settled_current this)
         (VNumber (Js.add (settled_bestialidade this) (Int 1))))
      (Some (Mortalidade.mk (mortalityTier (read_mortalidade this)).1
               (computed_hunt this))).
Proof.
  unfold prepareDerivedData, computed_hunt, settled_current, settled_bestialidade,
    read_mortalidade, read_humanidade, Actor.current, Actor.humanidade,
    Actor.bestialidade, Actor.mortalidade.
  destruct (mortalityTier _) as [penalty huntFrequency].
  case_decide; reflexivity.
Qed.

Lemma prepareDerivedData_unchanged (now : Z) (this : Actor.t) :
  Actor.lastMortalityLevel this = Some (computed_hunt this) →
  Actor.flags (prepareDerivedData now this).1 = Actor.flags this
  ∧ (prepareDerivedData now this).2 = [].
Proof.
  unfold prepareDerivedData, computed_hunt, read_mortalidade, Actor.mortalidade,
    Actor.lastMortalityLevel.
  destruct (mortalityTier _) as [penalty huntFrequency]. simpl.
  intros Hlast. case_decide; [congruence | done].
Qed.

Lemma prepareDerivedData_crossed (now : Z) (this : Actor.t) :
  Actor.lastMortalityLevel this ≠ Some (computed_hunt this) →
  Actor.flags (prepareDerivedData now this).1 =
    Flags.mk (Some (computed_hunt this))
      (Actor.history this ++
         [MortalidadeEntry now (computed_hunt this) (read_mortalidade this)])
  ∧ (prepareDerivedData now this).2 =
      if decide (computed_hunt this ≠ none)
      then scheduleHuntEvent (computed_hunt this) else [].
Proof.
  unfold prepareDerivedData, computed_hunt, read_mortalidade, Actor.mortalidade,
    Actor.lastMortalityLevel, Actor.history.
  destruct (mortalityTier _) as [penalty huntFrequency]. simpl.
  intros Hlast. case_decide; done.
Qed.

Lemma prepareDerivedData_lastMortalityLevel (now : Z) (this : Actor.t) :
  Actor.lastMortalityLevel (prepareDerivedData now this).1 = Some (computed_hunt this).
Proof.
  unfold Actor.lastMortalityLevel at 1.
  destruct (decide (Actor.lastMortalityLevel this = Some (computed_hunt this)))
    as [Hlast|Hlast].
  - destruct (prepareDerivedData_unchanged now this Hlast) as [-> _]. exact Hlast.
  - destruct (prepareDerivedData_crossed now this Hlast) as [-> _]. reflexivity.
Qed.

Lemma prepareDerivedData_humanidade (now : Z) (this : Actor.t) :
  Actor.humanidade (prepareDerivedData now this).1 = VNumber (read_humanidade this).
Proof. unfold Actor.humanidade at 1. by rewrite prepareDerivedData_system. Qed.

Lemma prepareDerivedData_bestialidade (now : Z) (this : Actor.t) :
  Actor.bestialidade (prepareDerivedData now this).1
  = VNumber (settled_bestialidade this).
Proof. unfold Actor.bestialidade at 1. by rewrite prepareDerivedData_system. Qed.

Lemma prepareDerivedData_mortalidade (now : Z) (this : Actor.t) :
  Actor.mortalidade (prepareDerivedData now this).1 = VNumber (read_mortalidade this).
Proof. unfold Actor.mortalidade at 1. by rewrite prepareDerivedData_system. Qed.

Lemma prepareDerivedData_max (now : Z) (this : Actor.t) :
  Actor.max (prepareDerivedData now this).1
  = VNumber (Js.add (settled_bestialidade this) (Int 1)).
Proof. unfold Actor.max at 1. by rewrite prepareDerivedData_system. Qed.

Lemma prepareDerivedData_current (now : Z) (this : Actor.t) :
  Actor.current (prepareDerivedData now this).1 = settled_current this.
Proof. unfold Actor.current at 1. by rewrite prepareDerivedData_system. Qed.

Lemma prepareDerivedData_derived (now : Z) (this : Actor.t) :
  Actor.derived (prepareDerivedData now this).1
  = Some (Mortalidade.mk (mortalityTier (read_mortalidade this)).1 (computed_hunt this)).
Proof. unfold Actor.derived at 1. by rewrite prepareDerivedData_system. Qed.

(** A second reading of what a preparation wrote finds the same numbers. *)
Lemma read_humanidade_prepared (now : Z) (this : Actor.t) :
  read_humanidade (prepareDerivedData now this).1 = read_humanidade this.
Proof.
  unfold read_humanidade at 1. by rewrite prepareDerivedData_humanidade.
Qed.

Lemma read_mortalidade_prepared (now : Z) (this : Actor.t) :
  read_mortalidade (prepareDerivedData now this).1 = read_mortalidade this.
Proof.
  unfold read_mortalidade at 1. by rewrite prepareDerivedData_mortalidade.
Qed.

Lemma computed_hunt_prepared (now : Z) (this : Actor.t) :
  computed_hunt (prepareDerivedData now this).1 = computed_hunt this.
Proof.
  unfold computed_hunt. rewrite read_mortalidade_prepared. reflexivity.
Qed.

Lemma settled_bestialidade_prepared (now : Z) (this : Actor.t) :
  settled_bestialidade (prepareDerivedData now this).1 = settled_bestialidade this.
Proof.
  unfold settled_bestialidade at 1.
  rewrite read_humanidade_prepared, prepareDerivedData_bestialidade. simpl.
  unfold settled_bestialidade.
  destruct (read_humanidade this) as [h|];
    destruct (Number (Js.nullish (Actor.bestialidade this) (VNumber (Int 6)))) as [b|];
    simpl; try reflexivity;
    repeat (case_bool_decide; simpl); try reflexivity; f_equal; lia.
Qed.

Lemma settled_current_prepared (now : Z) (this : Actor.t) :
  settled_current (prepareDerivedData now this).1 = settled_current this.
Proof.
  unfold settled_current at 1.
  rewrite settled_bestialidade_prepared, prepareDerivedData_current.
  unfold settled_current.
  destruct (Actor.current this) as [| |?|c|?|]; simpl; try (by rewrite gt_irrefl).
  destruct (Js.gt c _) eqn:Hgt; [by rewrite gt_irrefl | by rewrite Hgt].
Qed.

(** ** Idempotence *)

Lemma settled_iff (this : Actor.t) :
  settled this ↔
  Actor.system this = Actor.system (prepareDerivedData 0 this).1
  ∧ Actor.lastMortalityLevel this = Some (computed_hunt this).
Proof.
  split.
  - intros Hs. split.
    + by rewrite (Hs 0).
    + rewrite <- (prepareDerivedData_lastMortalityLevel 0 this).
      by rewrite (Hs 0).
  - intros [Hsys Hlast] now.
    destruct (prepareDerivedData_unchanged now this Hlast) as [Hf He].
    pose proof (prepareDerivedData_system now this) as Hs.
    rewrite <- (prepareDerivedData_system 0 this), <- Hsys in Hs.
    destruct (prepareDerivedData now this) as [[s f] e]. destruct this as [s0 f0].
    simpl in *. by subst.
Qed.

(** What a preparation returns is settled. *)
Lemma prepareDerivedData_settled (now : Z) (this : Actor.t) :
  settled (prepareDerivedData now this).1.
Proof.
  apply settled_iff. split.
  - rewrite !prepareDerivedData_system.
    by rewrite read_humanidade_prepared, read_mortalidade_prepared,
      settled_bestialidade_prepared, settled_current_prepared,
      computed_hunt_prepared.
  - rewrite computed_hunt_prepared. apply prepareDerivedData_lastMortalityLevel.
Qed.

(** The prepared sheets of the examples are settled. *)
Lemma prepared_sheet_settled (h b m c : Z) :
  h + b = 12 → m < 3 → c ≤ b + 1 → settled (prepared_sheet h b m c).
Proof.
  intros Hsum Hm Hc. apply settled_iff.
  assert (computed_hunt (prepared_sheet h b m c) = none) as Hhunt.
  { unfold computed_hunt, read_mortalidade. simpl. rewrite mortalityTier_Int.
    by rewrite decide_True. }
  split; [|by rewrite Hhunt].
  rewrite prepareDerivedData_system, Hhunt.
  unfold settled_current, settled_bestialidade, read_humanidade, read_mortalidade.
  simpl. rewrite mortalityTier_Int, decide_True by done.
  rewrite bool_decide_eq_false_2 by lia. simpl.
  by rewrite bool_decide_eq_false_2 by lia.
Qed.

(** C7.  Preparing an actor that has just been prepared, with nothing
    changed in between, gives back the very same actor (attributes, pool,
    corruption state, flags and history) and asks nothing of any
    collaborator: the second run appends no history entry. *)
Theorem prepareDerivedData_idempotent (now now' : Z) (this : Actor.t) :
  prepareDerivedData now' (prepareDerivedData now this).1
  = ((prepareDerivedData now this).1, [])
  ∧ Actor.history (prepareDerivedData now' (prepareDerivedData now this).1).1
    = Actor.history (prepareDerivedData now this).1.
Proof.
  pose proof (prepareDerivedData_settled now this now') as Heq.
  split; [exact Heq | by rewrite Heq].
Qed.

(** ** The attribute pair *)

(** The preparation reaches the invariant from every whole humanity between
    1 and 12, whatever bestiality was stored. *)
Lemma prepareDerivedData_balanced (now : Z) (this : Actor.t) (h : Z) :
  Actor.humanidade this = VNumber (Int h) →
  1 ≤ h ≤ 12 →
  (∃ b, Actor.bestialidade this = VNumber (Int b))
  ∨ Actor.bestialidade this = VUndefined →
  balanced (prepareDerivedData now this).1.
Proof.
  intros Hh Hrange Hb. unfold balanced.
  rewrite prepareDerivedData_humanidade, prepareDerivedData_bestialidade.
  unfold settled_bestialidade, read_humanidade. rewrite Hh. simpl.
  destruct Hb as [[b ->] | ->]; simpl; case_bool_decide; simpl; lia.
Qed.

(** C1.  The preparation does not reach the invariant from every sheet.
    With humanity 13 the sum is not 12, bestiality is set to
    max(0, 12 - 13) = 0 and the sum stays 13.  With humanity 0 and
    bestiality 12 the sum is 12, nothing is adjusted and bestiality stays
    12, outside [0, 11]. *)
Theorem prepareDerivedData_unbalanced (now : Z) :
  let over := (prepareDerivedData now (sheet 13 0 0 VUndefined)).1 in
  let full := (prepareDerivedData now (sheet 0 12 0 VUndefined)).1 in
  (Actor.humanidade over = VNumber (Int 13)
   ∧ Actor.bestialidade over = VNumber (Int 0)
   ∧ ¬ balanced over)
  ∧ (Actor.humanidade full = VNumber (Int 0)
     ∧ Actor.bestialidade full = VNumber (Int 12)
     ∧ ¬ balanced full).
Proof.
  cbv zeta. unfold balanced.
  rewrite !prepareDerivedData_humanidade, !prepareDerivedData_bestialidade.
  unfold settled_bestialidade, read_humanidade, sheet. simpl.
  repeat split; try reflexivity; intros [? ?]; lia.
Qed.

(** ** The pool *)

(** C2, as amended.  After a preparation [max] is bestiality + 1 and
    [current] is a number that does not exceed it.  A stored [current] of
    type number that does not exceed the new [max] is kept as it is, a
    negative one included: it is not raised to 0.  One that exceeds [max],
    or is not of type number, becomes [max].  So [current] lies in
    [0, max] whenever [max] is a whole number from 0 up and the stored value
    was not a negative number (or NaN). *)
Theorem prepareDerivedData_reserve (now : Z) (this : Actor.t) :
  let this' := (prepareDerivedData now this).1 in
  ∃ b' c',
    Actor.bestialidade this' = VNumber b'
    ∧ Actor.max this' = VNumber (Js.add b' (Int 1))
    ∧ Actor.current this' = VNumber c'
    ∧ Js.gt c' (Js.add b' (Int 1)) = false
    ∧ (∀ c, Actor.current this = VNumber c →
         Js.gt c (Js.add b' (Int 1)) = false → c' = c)
    ∧ (∀ c, Actor.current this = VNumber c →
         Js.gt c (Js.add b' (Int 1)) = true → c' = Js.add b' (Int 1))
    ∧ (Js.typeof_number (Actor.current this) = false → c' = Js.add b' (Int 1))
    ∧ (∀ mx, Js.add b' (Int 1) = Int mx → 0 ≤ mx →
         Actor.current this ≠ VNumber NaN →
         (∀ c, Actor.current this = VNumber (Int c) → 0 ≤ c) →
         ∃ c0, c' = Int c0 ∧ 0 ≤ c0 ≤ mx).
Proof.
  cbv zeta.
  rewrite prepareDerivedData_bestialidade, prepareDerivedData_max,
    prepareDerivedData_current.
  exists (settled_bestialidade this).
  unfold settled_current.
  set (mx := Js.add (settled_bestialidade this) (Int 1)).
  destruct (Actor.current this) as [| |?|c|?|] eqn:Hc;
    try (exists mx; repeat split; try done; try apply gt_irrefl;
         intros m -> Hm _ _; exists m; split; [done | lia]).
  destruct (Js.gt c mx) eqn:Hgt.
  - exists mx. repeat split; try done; try apply gt_irrefl.
    + intros c1 [= <-] Hle. congruence.
    + intros m Hmx Hm _ _. exists m. split; [done | lia].
  - exists c. repeat split; try done.
    + by intros c1 [= <-] _.
    + intros c1 [= <-] Hle. congruence.
    + intros m Hmx Hm Hnan Hneg. rewrite Hmx in Hgt.
      destruct c as [c0|]; [|done].
      exists c0. split; [done|]. apply gt_false_iff in Hgt.
      specialize (Hneg c0 eq_refl). lia.
Qed.

(** ** The corruption tier *)

(** Every corruption from 0 up has its row in the table. *)
Lemma corruption_table_complete (c : Z) :
  0 ≤ c → ∃ penalty frequency, corruption_table c penalty frequency.
Proof.
  intros Hc.
  destruct (decide (c ≤ 2)); [by exists 0, none; constructor|].
  destruct (decide (c ≤ 5)); [exists 1, weekly; constructor; lia|].
  destruct (decide (c ≤ 8)); [exists 2, twice_weekly; constructor; lia|].
  destruct (decide (c ≤ 11)); [exists 3, daily; constructor; lia|].
  exists 4, constant; constructor; lia.
Qed.

(** C3.  For a whole corruption, the penalty and the hunt frequency a
    preparation stores are those of the row of the table the corruption
    falls in. *)
Theorem prepareDerivedData_tier (now : Z) (this : Actor.t)
    (mort penalty : Z) (frequency : HuntFrequency) :
  Actor.mortalidade this = VNumber (Int mort) →
  corruption_table mort penalty frequency →
  Actor.derived (prepareDerivedData now this).1
  = Some (Mortalidade.mk penalty frequency).
Proof.
  intros Hmort Hrow.
  rewrite prepareDerivedData_derived. unfold computed_hunt, read_mortalidade.
  rewrite Hmort. simpl. rewrite mortalityTier_Int.
  destruct Hrow; repeat case_decide; simpl; try reflexivity; lia.
Qed.

(** C10.  Below 3, negative values included, the penalty is 0 and the hunt
    frequency is none. *)
Theorem prepareDerivedData_below_three (now : Z) (this : Actor.t) (mort : Z) :
  Actor.mortalidade this = VNumber (Int mort) →
  mort < 3 →
  Actor.derived (prepareDerivedData now this).1 = Some (Mortalidade.mk 0 none).
Proof.
  intros Hmort Hlt.
  rewrite prepareDerivedData_derived. unfold computed_hunt, read_mortalidade.
  rewrite Hmort. simpl. rewrite mortalityTier_Int.
  case_decide; [reflexivity | lia].
Qed.

(** ** Threshold crossings *)

(** While the frequency stays the one recorded, nothing is due. *)
Lemma crossings_steady (frequency : HuntFrequency)
    (observed : list (Z * HuntFrequency * number)) :
  Forall (λ o, o.1.2 = frequency) observed →
  crossings (Some frequency) observed = [].
Proof.
  induction 1 as [|[[now f] m] rest Hf _ IH]; [reflexivity|].
  simpl in *. subst f. by rewrite decide_True.
Qed.

(** C8.  Over a run of preparations, with the stored data changed at will
    between them, the history grows by exactly the threshold entries of the
    run: one for each preparation whose frequency differs from the one last
    recorded, in order, with the clock and corruption of that preparation.
    The reminders asked of the calendar are those of these entries.  A
    preparation whose frequency is the one recorded leaves history and flags
    as they are and asks for nothing. *)
Theorem invocations_crossings (flags : Flags.t) (steps : list (Z * System.t)) :
  let entries := crossings (Flags.lastMortalityLevel flags) (observe <$> steps) in
  (Flags.history (invocations flags steps).1 = Flags.history flags ++ entries
   ∧ (invocations flags steps).2 = entries ≫= reminder)
  ∧ (∀ now this,
       Actor.lastMortalityLevel this = Some (computed_hunt this) →
       Actor.flags (prepareDerivedData now this).1 = Actor.flags this
       ∧ (prepareDerivedData now this).2 = []).
Proof.
  cbv zeta. split; [|intros now this; apply prepareDerivedData_unchanged].
  revert flags. induction steps as [|[now data] rest IH]; intros flags.
  { simpl. by rewrite app_nil_r. }
  simpl. case_decide as Hlast.
  - destruct (prepareDerivedData_unchanged now (Actor.mk data flags) Hlast)
      as [Hf He].
    destruct (prepareDerivedData now (Actor.mk data flags)) as [this' effects].
    simpl in Hf, He. subst effects.
    specialize (IH (Actor.flags this')).
    destruct (invocations (Actor.flags this') rest) as [flags' effects'].
    rewrite Hf in IH. exact IH.
  - destruct (prepareDerivedData_crossed now (Actor.mk data flags) Hlast)
      as [Hf He].
    destruct (prepareDerivedData now (Actor.mk data flags)) as [this' effects].
    simpl in Hf, He. subst effects.
    specialize (IH (Actor.flags this')).
    destruct (invocations (Actor.flags this') rest) as [flags' effects'].
    rewrite Hf in IH. simpl in *. destruct IH as [-> ->].
    split; [by rewrite <- app_assoc | reflexivity].
Qed.

(** ** What an update writes *)

Lemma prepareDerivedData_history (now : Z) (this : Actor.t) :
  Actor.history (prepareDerivedData now this).1
  = Actor.history this ++
      crossings (Actor.lastMortalityLevel this)
        [(now, computed_hunt this, read_mortalidade this)].
Proof.
  unfold Actor.history at 1. simpl. case_decide as Hlast.
  - destruct (prepareDerivedData_unchanged now this Hlast) as [-> _].
    by rewrite app_nil_r.
  - by destruct (prepareDerivedData_crossed now this Hlast) as [-> _].
Qed.

Lemma prepareDerivedData_effects (now : Z) (this : Actor.t) :
  (prepareDerivedData now this).2
  = crossings (Actor.lastMortalityLevel this)
      [(now, computed_hunt this, read_mortalidade this)] ≫= reminder.
Proof.
  simpl. case_decide as Hlast.
  - by destruct (prepareDerivedData_unchanged now this Hlast) as [_ ->].
  - destruct (prepareDerivedData_crossed now this Hlast) as [_ ->].
    simpl. by rewrite app_nil_r.
Qed.

(** A reminder is a call of the calendar or a line on the console. *)
Lemma reminder_quiet (entry : HistoryEntry) (e : Effect) (n : Notification) :
  e ∈ reminder entry → e ≠ NotificationsWarn n.
Proof.
  unfold reminder, scheduleHuntEvent. intros He ->.
  destruct entry as [? frequency ?|]; [|by apply elem_of_nil in He].
  destruct (decide (frequency ≠ none)); [|by apply elem_of_nil in He].
  destruct simpleCalendar as [[[] [[? []]|]]|];
    repeat (apply elem_of_cons in He as [He|He]; [discriminate|]);
    by apply elem_of_nil in He.
Qed.

Lemma prepareDerivedData_quiet (now : Z) (this : Actor.t) (n : Notification) :
  NotificationsWarn n ∉ (prepareDerivedData now this).2.
Proof.
  rewrite prepareDerivedData_effects. intros Hin.
  apply list_elem_of_bind in Hin as (entry & Hin & _).
  by eapply reminder_quiet.
Qed.

(** Writing a whole pair that sums to 12: the preparation keeps the pair,
    sets [max] from it and caps the pool. *)
Lemma update_balanced (now : Z) (this : Actor.t) (newBestialidade newHumanidade : Z) :
  newHumanidade + newBestialidade = 12 →
  let this' := (update now this (Int newBestialidade) (Int newHumanidade)).1 in
  Actor.humanidade this' = VNumber (Int newHumanidade)
  ∧ Actor.bestialidade this' = VNumber (Int newBestialidade)
  ∧ Actor.max this' = VNumber (Int (newBestialidade + 1))
  ∧ Actor.current this' =
      match Actor.current this with
      | VNumber c =>
          if Js.gt c (Int (newBestialidade + 1))
          then VNumber (Int (newBestialidade + 1)) else VNumber c
      | _ => VNumber (Int (newBestialidade + 1))
      end.
Proof.
  intros Hsum. cbv zeta. unfold update.
  rewrite prepareDerivedData_humanidade, prepareDerivedData_bestialidade,
    prepareDerivedData_max, prepareDerivedData_current.
  unfold settled_current, settled_bestialidade, read_humanidade. simpl.
  rewrite bool_decide_eq_false_2 by lia. done.
Qed.

(** An update leaves the corruption where it was, so it adds to the history
    what a preparation of the actor would. *)
Lemma update_history (now : Z) (this : Actor.t) (newBestialidade newHumanidade : number) :
  let this' := (update now this newBestialidade newHumanidade).1 in
  Actor.history this' =
    Actor.history this ++
      crossings (Actor.lastMortalityLevel this)
        [(now, computed_hunt this, read_mortalidade this)]
  ∧ Actor.mortalidade this' = VNumber (read_mortalidade this).
Proof.
  cbv zeta. unfold update.
  by rewrite prepareDerivedData_history, prepareDerivedData_mortalidade.
Qed.

Lemma update_quiet (now : Z) (this : Actor.t) (newBestialidade newHumanidade : number)
    (n : Notification) :
  NotificationsWarn n ∉ (update now this newBestialidade newHumanidade).2.
Proof. unfold update. apply prepareDerivedData_quiet. Qed.

(** ** The resolution of a roll *)

Lemma lookup_own {A : Type} (object : gmap string A) (key : string) (x : A) :
  object !! key = Some x → Js.lookup object key = Js.Own x.
Proof. unfold Js.lookup. by intros ->. Qed.

Lemma lookup_missing {A : Type} (object : gmap string A) (key : string) :
  Js.lookup object key = Js.Missing
  ↔ object !! key = None ∧ Js.inherited key = false.
Proof.
  unfold Js.lookup. destruct (object !! key); [by split; [|intros []]|].
  destruct (Js.inherited key); by split; [|intros []].
Qed.

Lemma lookup_cases {A : Type} (object : gmap string A) (key : string) :
  Js.lookup object key = Js.Missing ∨ Js.lookup object key ≠ Js.Missing.
Proof. destruct (Js.lookup object key); [by right | by right | by left]. Qed.

Lemma get_skill (this : Actor.t) (skillKey : string) :
  Js.get (System.skills (Actor.system this)) skillKey
  = default VUndefined (Actor.skill this skillKey).
Proof. unfold Js.get, Actor.skill. by destruct (Js.lookup _ _). Qed.

Lemma skillVal_whole (this : Actor.t) (skillKey : string) (r : Z) :
  Actor.skill this skillKey = Some (VNumber (Int r)) →
  Number (Js.or (Js.get (System.skills (Actor.system this)) skillKey)
            (VNumber (Int 0)))
  = Int r.
Proof.
  rewrite get_skill. intros ->. unfold Js.or. simpl.
  case_bool_decide; simpl; [reflexivity | f_equal; lia].
Qed.

Lemma set_history_history (this : Actor.t) (history : list HistoryEntry) :
  Actor.history (set_history this history) = history.
Proof. reflexivity. Qed.

Lemma set_history_mortalidade (this : Actor.t) (history : list HistoryEntry) :
  Actor.mortalidade (set_history this history) = Actor.mortalidade this.
Proof. reflexivity. Qed.

(** The shape of a resolution for a key under which
    [CONFIG.Contrato.skills] gives something, of its own or inherited. *)
Lemma executeSkillRoll_found (this : Actor.t) (skillKey : string)
    (umbral : bool) (m : Z) (w : Draw.t) :
  Js.lookup (Contrato.skills CONFIG) skillKey ≠ Js.Missing →
  ∃ total chat,
    executeSkillRoll this skillKey umbral m w
    = (set_history (after_branch this umbral w).1
         (Actor.history (after_branch this umbral w).1 ++
            [RollEntry (Draw.now w) skillKey total
               (Number (Actor.humanidade this)) (Number (Actor.bestialidade this))
               (Actor.mortalidade (after_branch this umbral w).1)]),
       (after_branch this umbral w).2 ++ [ChatMessageCreate chat],
       Some total)
    ∧ chat =
        ChatMessage.mk (label_text (Js.lookup (Contrato.skills CONFIG) skillKey))
          (Draw.d12 w)
          (Number (Js.or (default VUndefined (Actor.skill this skillKey))
                     (VNumber (Int 0))))
          umbral (if umbral then Draw.d6 w else Js.Math_ceil_half (Draw.d6 w))
          m total
    ∧ total =
        Js.add
          (Js.add
             (Js.add (Int (Draw.d12 w))
                (Number (Js.or (default VUndefined (Actor.skill this skillKey))
                           (VNumber (Int 0)))))
             (Int (if umbral then Draw.d6 w else Js.Math_ceil_half (Draw.d6 w))))
          (Int m).
Proof.
  intros Hfound. unfold executeSkillRoll. rewrite get_skill.
  change (set_current this _) with (spent this).
  destruct umbral.
  - change (update _ _ _ _) with (after_branch this true w).
    destruct (after_branch this true w) as [this2 updated].
    destruct (Js.lookup (Contrato.skills CONFIG) skillKey); [| |done];
      (eexists _, _; split; [reflexivity|]; split; reflexivity).
  - destruct (Js.lookup (Contrato.skills CONFIG) skillKey); [| |done];
      (eexists _, _; split; [reflexivity|]; split; reflexivity).
Qed.

(** The shape of a resolution for a configured key. *)
Lemma executeSkillRoll_configured (this : Actor.t) (skillKey : string)
    (skillConfig : SkillConfig.t) (umbral : bool) (m : Z) (w : Draw.t) :
  Contrato.skills CONFIG !! skillKey = Some skillConfig →
  ∃ total chat,
    executeSkillRoll this skillKey umbral m w
    = (set_history (after_branch this umbral w).1
         (Actor.history (after_branch this umbral w).1 ++
            [RollEntry (Draw.now w) skillKey total
               (Number (Actor.humanidade this)) (Number (Actor.bestialidade this))
               (Actor.mortalidade (after_branch this umbral w).1)]),
       (after_branch this umbral w).2 ++ [ChatMessageCreate chat],
       Some total)
    ∧ ChatMessage.d6Value chat
      = (if umbral then Draw.d6 w else Js.Math_ceil_half (Draw.d6 w))
    ∧ total =
        Js.add
          (Js.add
             (Js.add (Int (Draw.d12 w))
                (Number (Js.or (default VUndefined (Actor.skill this skillKey))
                           (VNumber (Int 0)))))
             (Int (ChatMessage.d6Value chat)))
          (Int m).
Proof.
  intros Hcfg.
  destruct (executeSkillRoll_found this skillKey umbral m w)
    as (total & chat & Heq & -> & Htotal).
  { by rewrite (lookup_own _ _ _ Hcfg). }
  exists total. eexists. split; [exact Heq|]. split; [reflexivity | exact Htotal].
Qed.

(** C4.  A sacred roll on a configured skill of whole rating [r], with a
    whole pool [c] and a d6 between 1 and 6, whatever the d12 and the
    modifier [m]: the pool goes to max(0, c - 1), humanity and bestiality
    are as before, the spent die counts for ceil(d6 / 2), which is the least
    whole number whose double reaches d6 and lies between 1 and 3, and the
    total returned is d12 + r + ceil(d6 / 2) + m. *)
Theorem executeSkillRoll_sagrado (this : Actor.t) (skillKey : string)
    (skillConfig : SkillConfig.t) (r c m : Z) (w : Draw.t) :
  Contrato.skills CONFIG !! skillKey = Some skillConfig →
  Actor.skill this skillKey = Some (VNumber (Int r)) →
  Actor.current this = VNumber (Int c) →
  1 ≤ Draw.d6 w ≤ 6 →
  let contribution := Js.Math_ceil_half (Draw.d6 w) in
  ∃ this' chat,
    executeSkillRoll this skillKey false m w
    = (this', [ChatMessageCreate chat],
       Some (Int (Draw.d12 w + r + contribution + m)))
    ∧ Actor.current this' = VNumber (Int (Z.max 0 (c - 1)))
    ∧ Actor.humanidade this' = Actor.humanidade this
    ∧ Actor.bestialidade this' = Actor.bestialidade this
    ∧ ChatMessage.d6Value chat = contribution
    ∧ 2 * contribution - 1 ≤ Draw.d6 w ≤ 2 * contribution
    ∧ 1 ≤ contribution ≤ 3.
Proof.
  intros Hcfg Hskill Hcur Hd6 contribution.
  unfold executeSkillRoll.
  rewrite (lookup_own _ _ _ Hcfg), (skillVal_whole _ _ _ Hskill).
  unfold Actor.current in Hcur. rewrite Hcur. simpl.
  eexists _, _. split; [reflexivity|].
  pose proof (Math_ceil_half_spec (Draw.d6 w)) as Hceil.
  repeat split; try reflexivity; subst contribution; lia.
Qed.


(** C9, as amended.  A resolution on a configured skill appends exactly one
    roll entry, at the end of the history: it holds the clock, the skill
    key and the total returned, the corruption as stored when the entry is
    appended, and the humanity and bestiality read when the resolution
    started, so for an umbral roll the values from before the update.
    Between the old history and the roll entry comes only what the
    preparation set off by the update of an umbral roll appends: the
    threshold entry of a frequency not recorded yet, if there is one. *)
Theorem executeSkillRoll_history (this : Actor.t) (skillKey : string)
    (skillConfig : SkillConfig.t) (umbral : bool) (m : Z) (w : Draw.t) :
  Contrato.skills CONFIG !! skillKey = Some skillConfig →
  ∃ this' effects total,
    executeSkillRoll this skillKey umbral m w = (this', effects, Some total)
    ∧ Actor.history this' =
        Actor.history this ++
        (if umbral
         then crossings (Actor.lastMortalityLevel this)
                [(Draw.now_update w, computed_hunt this, read_mortalidade this)]
         else []) ++
        [RollEntry (Draw.now w) skillKey total
           (Number (Actor.humanidade this)) (Number (Actor.bestialidade this))
           (Actor.mortalidade this')].
Proof.
  intros Hcfg.
  destruct (executeSkillRoll_configured this skillKey skillConfig umbral m w Hcfg)
    as (total & chat & Heq & _).
  eexists _, _, total. split; [exact Heq|].
  rewrite set_history_history, set_history_mortalidade, app_assoc.
  f_equal. unfold after_branch. destruct umbral.
  - by destruct (update_history (Draw.now_update w) (spent this)
      (Js.Math_min (Int 11) (Js.add (Number (Actor.bestialidade this)) (Int 1)))
      (Js.Math_max (Int 0) (Js.sub (Int 12)
         (Js.Math_min (Int 11) (Js.add (Number (Actor.bestialidade this)) (Int 1))))))
      as [-> _].
  - by rewrite app_nil_r.
Qed.

(** ** A roll leaves the actor settled *)

(** The preparation that follows the writing of the history flag finds
    nothing to do: from a settled actor whose [max] is not negative, a
    resolution ends on a settled actor. *)
Lemma set_history_settled (this : Actor.t) (history : list HistoryEntry) :
  settled this → settled (set_history this history).
Proof.
  rewrite !settled_iff. intros [Hsys Hlast]. split; [|exact Hlast].
  simpl. rewrite Hsys at 1. by rewrite !prepareDerivedData_system.
Qed.

Lemma spent_settled (this : Actor.t) (b c : Z) :
  settled this →
  Actor.bestialidade this = VNumber (Int b) →
  Actor.current this = VNumber (Int c) →
  -1 ≤ b →
  settled (spent this).
Proof.
  rewrite !settled_iff. intros [Hsys Hlast] Hb Hcur Hrange.
  split; [|exact Hlast].
  assert (settled_bestialidade this = Int b) as Hsb.
  { unfold Actor.bestialidade in Hb. rewrite Hsys, prepareDerivedData_system in Hb.
    by injection Hb. }
  assert (c ≤ b + 1) as Hc.
  { unfold Actor.current in Hcur. rewrite Hsys, prepareDerivedData_system in Hcur.
    simpl in Hcur. unfold settled_current in Hcur.
    rewrite Hsb in Hcur. simpl in Hcur.
    destruct (Actor.current this) as [| |?|[c0|]|?|]; simpl in Hcur;
      try (injection Hcur; lia); try discriminate.
    case_bool_decide; injection Hcur; lia. }
  pose proof (prepareDerivedData_system 0 this) as Hp. rewrite <- Hsys in Hp.
  rewrite prepareDerivedData_system.
  change (read_humanidade (spent this)) with (read_humanidade this).
  change (read_mortalidade (spent this)) with (read_mortalidade this).
  change (computed_hunt (spent this)) with (computed_hunt this).
  change (settled_bestialidade (spent this)) with (settled_bestialidade this).
  assert (settled_current (spent this)
          = VNumber (Int (Z.max 0 (c - 1)))) as ->.
  { unfold settled_current.
    change (settled_bestialidade (spent this)) with (settled_bestialidade this).
    rewrite Hsb. unfold spent. rewrite Hcur. simpl.
    by rewrite bool_decide_eq_false_2 by lia. }
  unfold spent. rewrite Hcur. unfold set_current. simpl.
  rewrite Hp at 1 2 3 4. reflexivity.
Qed.

Lemma executeSkillRoll_settled (this : Actor.t) (skillKey : string)
    (skillConfig : SkillConfig.t) (umbral : bool) (m b c : Z) (w : Draw.t) :
  Contrato.skills CONFIG !! skillKey = Some skillConfig →
  settled this →
  Actor.bestialidade this = VNumber (Int b) →
  Actor.current this = VNumber (Int c) →
  -1 ≤ b →
  settled (executeSkillRoll this skillKey umbral m w).1.1.
Proof.
  intros Hcfg Hs Hb Hcur Hrange.
  destruct (executeSkillRoll_configured this skillKey skillConfig umbral m w Hcfg)
    as (total & chat & -> & _).
  apply set_history_settled. unfold after_branch. destruct umbral.
  - apply prepareDerivedData_settled.
  - by eapply spent_settled.
Qed.

(** ** The two rejections *)

Lemma after_branch_quiet (this : Actor.t) (umbral : bool) (w : Draw.t)
    (n : Notification) :
  NotificationsWarn n ∉ (after_branch this umbral w).2.
Proof.
  unfold after_branch. destruct umbral; [apply update_quiet | apply not_elem_of_nil].
Qed.

Lemma rollSkill_missing (this : Actor.t) (skillKey : string)
    (answer : option Answer.t) (w : Draw.t) :
  Js.lookup (Contrato.skills CONFIG) skillKey = Js.Missing →
  rollSkill this skillKey answer w
  = (this, [NotificationsWarn (UnknownSkill skillKey)], None).
Proof. unfold rollSkill. by intros ->. Qed.

Lemma rollSkill_found (this : Actor.t) (skillKey : string)
    (answer : option Answer.t) (w : Draw.t) :
  Js.lookup (Contrato.skills CONFIG) skillKey ≠ Js.Missing →
  rollSkill this skillKey answer w
  = let skillLabel := label_text (Js.lookup (Contrato.skills CONFIG) skillKey) in
    if Js.le (Number (Actor.current this)) (Int 0) then
      (this, [NotificationsWarn (NoResourceAvailable skillLabel)], None)
    else
      match answer with
      | None => (this, [DialogRender skillLabel], None)
      | Some ans =>
          ((executeSkillRoll this skillKey (Answer.umbral ans)
              (Answer.situationalMod ans) w).1.1,
           DialogRender skillLabel ::
             (executeSkillRoll this skillKey (Answer.umbral ans)
                (Answer.situationalMod ans) w).1.2,
           (executeSkillRoll this skillKey (Answer.umbral ans)
              (Answer.situationalMod ans) w).2)
      end.
Proof.
  intros Hfound. unfold rollSkill, Actor.current.
  destruct (Js.lookup (Contrato.skills CONFIG) skillKey); [| |done];
    cbv zeta; destruct (Js.le _ _); try reflexivity;
    destruct answer as [ans|]; try reflexivity;
    by destruct (executeSkillRoll _ _ _ _ _) as [[? ?] ?].
Qed.

(** What [rollSkill] turns down.  A key under which [CONFIG.Contrato.skills]
    gives nothing, neither of its own nor inherited, is reported as
    UnknownSkill; a key under which it gives something, with a whole pool
    of 0 or less, as NoResourceAvailable; either way nothing is returned
    and the actor is the one it was given.  With a whole pool these are the
    only cases in which a rejection is reported. *)
Theorem rollSkill_rejects (this : Actor.t) (skillKey : string)
    (answer : option Answer.t) (w : Draw.t) :
  let outcome := rollSkill this skillKey answer w in
  let found := Js.lookup (Contrato.skills CONFIG) skillKey in
  (Contrato.skills CONFIG !! skillKey = None → Js.inherited skillKey = false →
     outcome = (this, [NotificationsWarn (UnknownSkill skillKey)], None))
  ∧ (∀ c,
       found ≠ Js.Missing →
       Actor.current this = VNumber (Int c) →
       c ≤ 0 →
       outcome =
         (this, [NotificationsWarn (NoResourceAvailable (label_text found))], None))
  ∧ (∀ c,
       Actor.current this = VNumber (Int c) →
       (∃ n, NotificationsWarn n ∈ outcome.1.2)
       ↔ (Contrato.skills CONFIG !! skillKey = None ∧ Js.inherited skillKey = false)
         ∨ c ≤ 0).
Proof.
  cbv zeta. split; [|split].
  - intros Hnone Hinh. apply rollSkill_missing. by apply lookup_missing.
  - intros c Hfound Hcur Hc. rewrite rollSkill_found by done.
    cbv zeta. rewrite Hcur, Number_VNumber. unfold Js.le.
    by rewrite bool_decide_eq_true_2.
  - intros c Hcur. rewrite <- lookup_missing.
    destruct (lookup_cases (Contrato.skills CONFIG) skillKey) as [Hmiss|Hfound].
    { rewrite rollSkill_missing by done. split; [by left|]. intros _.
      eexists. apply list_elem_of_singleton. reflexivity. }
    rewrite rollSkill_found by done. cbv zeta.
    rewrite Hcur, Number_VNumber. unfold Js.le.
    case_bool_decide as Hc.
    { split; [by right|]. intros _. eexists. apply list_elem_of_singleton.
      reflexivity. }
    split; [|intros [?|?]; [done | lia]].
    intros [n Hin]. exfalso.
    destruct answer as [ans|].
    + destruct (executeSkillRoll_found this skillKey
                  (Answer.umbral ans) (Answer.situationalMod ans) w Hfound)
        as (total & chat & Heq & _).
      rewrite Heq in Hin. simpl in Hin.
      apply elem_of_cons in Hin as [Hin|Hin]; [discriminate|].
      apply elem_of_app in Hin as [Hin|Hin].
      * by eapply after_branch_quiet.
      * apply list_elem_of_singleton in Hin. discriminate.
    + simpl in Hin. apply list_elem_of_singleton in Hin. discriminate.
Qed.

(** ** More on the preparation *)


(** A humanity that does not read as a number spreads: bestiality and the
    maximum of the pool become NaN.  A pool that is a number is then kept
    however large, no comparison with NaN being true, and a pool that is not
    a number becomes NaN. *)
Theorem prepareDerivedData_NaN (now : Z) (this : Actor.t) :
  read_humanidade this = NaN →
  let this' := (prepareDerivedData now this).1 in
  Actor.humanidade this' = VNumber NaN
  ∧ Actor.bestialidade this' = VNumber NaN
  ∧ Actor.max this' = VNumber NaN
  ∧ (∀ c, Actor.current this = VNumber c → Actor.current this' = VNumber c)
  ∧ (Js.typeof_number (Actor.current this) = false →
     Actor.current this' = VNumber NaN).
Proof.
  intros Hrh. cbv zeta.
  assert (settled_bestialidade this = NaN) as Hsb
    by (unfold settled_bestialidade; by rewrite Hrh).
  rewrite prepareDerivedData_humanidade, prepareDerivedData_bestialidade,
    prepareDerivedData_max, prepareDerivedData_current, Hrh.
  unfold settled_current. rewrite Hsb. simpl.
  repeat split.
  - intros c ->. by destruct c.
  - by destruct (Actor.current this).
Qed.


(** ** The reminder *)

(** Without the module, with the module inactive or without its API, there
    is no reminder: one line on the console, whatever the frequency. *)
Theorem scheduleHuntEvent_unavailable (frequency : HuntFrequency) :
  simpleCalendar = None
  ∨ (∃ scModule, simpleCalendar = Some scModule
       ∧ (SimpleCalendar.active scModule = false
          ∨ SimpleCalendar.api scModule = None)) →
  scheduleHuntEvent frequency = [ConsoleWarn CalendarNotFound].
Proof.
  unfold scheduleHuntEvent.
  intros [-> | (scModule & -> & [Hoff | Hapi])]; [done | |].
  - by rewrite Hoff.
  - rewrite Hapi. by destruct (SimpleCalendar.active scModule).
Qed.

(** With the module active, one event is added, in the month and year of
    the current date (the date 0/0/0 when the API has no current date) and
    from no day earlier to seven days later: seven for weekly, three for
    twice-weekly, one for daily, the day itself for constant.  When adding
    raises, a line on the console follows and nothing else happens. *)
Theorem scheduleHuntEvent_available (frequency : HuntFrequency)
    (api : SimpleCalendar.api_t) :
  simpleCalendar = Some (SimpleCalendar.mk true (Some api)) →
  let today := default (Date.mk 0 0 0) (SimpleCalendar.currentDate api) in
  ∃ date,
    scheduleHuntEvent frequency
    = CalendarAddEvent date frequency ::
        (if SimpleCalendar.addEvent_throws api
         then [ConsoleWarn CalendarAddEventFailed] else [])
    ∧ Date.year date = Date.year today
    ∧ Date.month date = Date.month today
    ∧ Date.day today ≤ Date.day date ≤ Date.day today + 7
    ∧ (frequency = weekly → Date.day date = Date.day today + 7)
    ∧ (frequency = twice_weekly → Date.day date = Date.day today + 3)
    ∧ (frequency = daily → Date.day date = Date.day today + 1)
    ∧ (frequency = constant → Date.day date = Date.day today).
Proof.
  intros Hsc. cbv zeta. unfold scheduleHuntEvent. rewrite Hsc. simpl.
  eexists. split; [reflexivity|].
  destruct (SimpleCalendar.currentDate api) as [d|]; simpl;
    destruct frequency; repeat split; try discriminate; lia.
Qed.

(** ** More on the rolls *)

Lemma after_branch_asks (this : Actor.t) (umbral : bool) (w : Draw.t) :
  Forall calendar_or_console (after_branch this umbral w).2
  ∧ (umbral = false → (after_branch this umbral w).2 = []).
Proof.
  unfold after_branch. destruct umbral; [|by split; [constructor|]].
  split; [|discriminate]. unfold update.
  rewrite prepareDerivedData_effects.
  apply Forall_forall. intros e Hin.
  apply list_elem_of_bind in Hin as (entry & Hin & _).
  unfold reminder, scheduleHuntEvent in Hin.
  destruct entry as [? frequency ?|]; [|by apply elem_of_nil in Hin].
  destruct (decide (frequency ≠ none)); [|by apply elem_of_nil in Hin].
  destruct simpleCalendar as [[[] [[? []]|]]|];
    repeat (apply elem_of_cons in Hin as [->|Hin]; [done|]);
    by apply elem_of_nil in Hin.
Qed.


(** The chat message of a resolution, field by field. *)
Lemma executeSkillRoll_chat (this : Actor.t) (skillKey : string)
    (skillConfig : SkillConfig.t) (umbral : bool) (m : Z) (w : Draw.t) :
  Contrato.skills CONFIG !! skillKey = Some skillConfig →
  ∃ this' total skillVal,
    executeSkillRoll this skillKey umbral m w
    = (this',
       (after_branch this umbral w).2 ++
         [ChatMessageCreate
            (ChatMessage.mk (SkillConfig.label skillConfig) (Draw.d12 w) skillVal
               umbral (if umbral then Draw.d6 w else Js.Math_ceil_half (Draw.d6 w))
               m total)],
       Some total).
Proof.
  intros Hcfg. pose proof (lookup_own _ _ _ Hcfg) as Hown.
  destruct (executeSkillRoll_found this skillKey umbral m w)
    as (total & chat & -> & -> & _); [by rewrite Hown|].
  rewrite Hown. by eexists _, _, _.
Qed.


Lemma crossings_one_length (last : option HuntFrequency)
    (o : Z * HuntFrequency * number) :
  (length (crossings last [o]) ≤ 1)%nat.
Proof. destruct o as [[now f] m]. simpl. case_decide; simpl; lia. Qed.

Lemma after_branch_history (this : Actor.t) (umbral : bool) (w : Draw.t) :
  Actor.history (after_branch this umbral w).1
  = Actor.history this ++
      (if umbral
       then crossings (Actor.lastMortalityLevel this)
              [(Draw.now_update w, computed_hunt this, read_mortalidade this)]
       else []).
Proof.
  unfold after_branch. destruct umbral; [|by rewrite app_nil_r].
  by destruct (update_history (Draw.now_update w) (spent this)
      (Js.Math_min (Int 11) (Js.add (Number (Actor.bestialidade this)) (Int 1)))
      (Js.Math_max (Int 0) (Js.sub (Int 12)
         (Js.Math_min (Int 11) (Js.add (Number (Actor.bestialidade this)) (Int 1))))))
      as [-> _].
Qed.

(** The history only grows under [rollSkill]: what was there stays in front,
    and at most two entries are added, the threshold entry of the
    preparation of an umbral roll and the roll entry. *)
Theorem rollSkill_history_grows (this : Actor.t) (skillKey : string)
    (answer : option Answer.t) (w : Draw.t) :
  let this' := (rollSkill this skillKey answer w).1.1 in
  Actor.history this `prefix_of` Actor.history this'
  ∧ (length (Actor.history this') ≤ length (Actor.history this) + 2)%nat.
Proof.
  cbv zeta.
  destruct (lookup_cases (Contrato.skills CONFIG) skillKey) as [Hmiss|Hfound];
    [rewrite rollSkill_missing by done; by split; [|simpl; lia]|].
  rewrite rollSkill_found by done. cbv zeta.
  destruct (Js.le _ _); [by split; [|simpl; lia]|].
  destruct answer as [ans|]; [|by split; [|simpl; lia]].
  destruct (executeSkillRoll_found this skillKey
              (Answer.umbral ans) (Answer.situationalMod ans) w Hfound)
    as (total & chat & -> & _).
  simpl. rewrite set_history_history, after_branch_history.
  split.
  - rewrite <- app_assoc. by eexists.
  - rewrite !length_app.
    pose proof (crossings_one_length (Actor.lastMortalityLevel this)
                  (Draw.now_update w, computed_hunt this, read_mortalidade this))
      as Hone.
    set (crossed := crossings _ _) in *.
    destruct (Answer.umbral ans); simpl; lia.
Qed.

(** C6.  [rollSkill] does not turn down every key outside the configured
    skills.  A key that is not configured but names a member every object
    inherits from [Object.prototype], "constructor" for one, passes the
    test on [skillConfig]: with a whole pool above 0 and an answer of the
    player no rejection is reported, the dialog is rendered under the label
    "undefined", and the roll is resolved.  A chat message is created, a
    roll entry is appended to the history, the actor is no longer the one
    given, a sacred roll has taken a die from the pool, and on a sheet
    without a rating of its own under the key the total is NaN. *)
Theorem rollSkill_inherited_key (this : Actor.t) (skillKey : string) (c : Z)
    (answer : Answer.t) (w : Draw.t) :
  Contrato.skills CONFIG !! skillKey = None →
  Js.inherited skillKey = true →
  Actor.current this = VNumber (Int c) →
  0 < c →
  ∃ this' asked chat total,
    rollSkill this skillKey (Some answer) w
    = (this', DialogRender "undefined" :: asked ++ [ChatMessageCreate chat],
       Some total)
    ∧ (∀ n, NotificationsWarn n
            ∉ DialogRender "undefined" :: asked ++ [ChatMessageCreate chat])
    ∧ ChatMessage.total chat = total
    ∧ last (Actor.history this')
      = Some (RollEntry (Draw.now w) skillKey total
                (Number (Actor.humanidade this)) (Number (Actor.bestialidade this))
                (Actor.mortalidade this'))
    ∧ this' ≠ this
    ∧ (Answer.umbral answer = false → Actor.current this' = VNumber (Int (c - 1)))
    ∧ (System.skills (Actor.system this) !! skillKey = None → total = NaN).
Proof.
  intros Hcfg Hinh Hcur Hc.
  assert (Js.lookup (Contrato.skills CONFIG) skillKey = Js.Inherited) as Hlook
    by (unfold Js.lookup; by rewrite Hcfg, Hinh).
  rewrite rollSkill_found by (by rewrite Hlook). cbv zeta.
  rewrite Hcur, Number_VNumber, Hlook. unfold Js.le.
  rewrite bool_decide_eq_false_2 by lia.
  destruct (executeSkillRoll_found this skillKey (Answer.umbral answer)
              (Answer.situationalMod answer) w) as (total & chat & -> & -> & Htotal);
    [by rewrite Hlook|].
  rewrite Hlook. cbn [fst snd label_text].
  eexists _, _, _, _. split; [reflexivity|].
  split; [|split; [reflexivity|split; [|split; [|split]]]].
  - intros n Hin.
    apply elem_of_cons in Hin as [Hin|Hin]; [discriminate|].
    apply elem_of_app in Hin as [Hin|Hin].
    + by eapply after_branch_quiet.
    + apply list_elem_of_singleton in Hin. discriminate.
  - rewrite set_history_history, set_history_mortalidade. apply last_snoc.
  - intros Heq. apply (f_equal (λ a, length (Actor.history a))) in Heq.
    rewrite set_history_history, length_app, after_branch_history, length_app in Heq.
    simpl in Heq. lia.
  - intros Hsagrado. rewrite Hsagrado. unfold after_branch.
    change (Actor.current (set_history ?a _)) with (Actor.current a).
    unfold spent. rewrite Hcur. simpl.
    replace (Z.max 0 (c - 1)) with (c - 1) by lia. reflexivity.
  - intros Hsheet. subst total.
    assert (Actor.skill this skillKey = Some VInherited) as ->
      by (unfold Actor.skill, Js.lookup; by rewrite Hsheet, Hinh).
    reflexivity.
Qed.

(** [#executeSkillRoll] on a key under which [CONFIG.Contrato.skills] gives
    nothing, neither of its own nor inherited from [Object.prototype],
    raises when it builds the chat message, after the die has been spent:
    nothing is returned, no chat message is created and no roll entry is
    written, yet the pool of a sacred roll has gone down. *)
Theorem executeSkillRoll_unconfigured (this : Actor.t) (skillKey : string)
    (umbral : bool) (c m : Z) (w : Draw.t) :
  Contrato.skills CONFIG !! skillKey = None →
  Js.inherited skillKey = false →
  Actor.current this = VNumber (Int c) →
  ∃ this' asked,
    executeSkillRoll this skillKey umbral m w = (this', asked, None)
    ∧ Forall calendar_or_console asked
    ∧ Actor.history this' =
        Actor.history this ++
          (if umbral
           then crossings (Actor.lastMortalityLevel this)
                  [(Draw.now_update w, computed_hunt this, read_mortalidade this)]
           else [])
    ∧ (umbral = false → Actor.current this' = VNumber (Int (Z.max 0 (c - 1)))).
Proof.
  intros Hcfg Hinh Hcur. unfold executeSkillRoll.
  rewrite (proj2 (lookup_missing _ _) (conj Hcfg Hinh)).
  change (set_current this _) with (spent this).
  pose proof (after_branch_history this umbral w) as Hhist.
  destruct (after_branch_asks this umbral w) as [Hall _].
  destruct umbral.
  - change (update _ _ _ _) with (after_branch this true w).
    destruct (after_branch this true w) as [this2 updated].
    eexists _, _. split; [reflexivity|]. by repeat split.
  - eexists _, _. split; [reflexivity|]. repeat split; try done.
    unfold spent. by rewrite Hcur.
Qed.

(** An umbral roll brings the pair back to the invariant, whatever humanity
    and pool were: from a whole bestiality [b] of -1 or more, bestiality
    becomes min(11, b + 1), humanity what is missing to 12, at least 1. *)
Theorem executeSkillRoll_umbral_balances (this : Actor.t) (skillKey : string)
    (skillConfig : SkillConfig.t) (b m : Z) (w : Draw.t) :
  Contrato.skills CONFIG !! skillKey = Some skillConfig →
  Actor.bestialidade this = VNumber (Int b) →
  -1 ≤ b →
  let this' := (executeSkillRoll this skillKey true m w).1.1 in
  balanced this'
  ∧ Actor.bestialidade this' = VNumber (Int (Z.min 11 (b + 1)))
  ∧ Actor.humanidade this' = VNumber (Int (12 - Z.min 11 (b + 1)))
  ∧ 1 ≤ 12 - Z.min 11 (b + 1).
Proof.
  intros Hcfg Hb Hrange. cbv zeta.
  destruct (executeSkillRoll_configured this skillKey skillConfig true m w Hcfg)
    as (total & chat & -> & _).
  simpl. unfold after_branch. rewrite Hb. simpl.
  destruct (update_balanced (Draw.now_update w) (spent this)
              (Z.min 11 (b + 1)) (Z.max 0 (12 - Z.min 11 (b + 1))))
    as (Hh' & Hb' & _); [lia|].
  unfold balanced.
  change (Actor.humanidade (set_history ?a _)) with (Actor.humanidade a).
  change (Actor.bestialidade (set_history ?a _)) with (Actor.bestialidade a).
  rewrite Hh', Hb'.
  replace (Z.max 0 (12 - Z.min 11 (b + 1))) with (12 - Z.min 11 (b + 1)) by lia.
  repeat split; lia.
Qed.

Lemma executeSkillRoll_total (this : Actor.t) (skillKey : string)
    (skillConfig : SkillConfig.t) (umbral : bool) (m : Z) (w : Draw.t) :
  Contrato.skills CONFIG !! skillKey = Some skillConfig →
  (executeSkillRoll this skillKey umbral m w).2
  = Some
      (Js.add
         (Js.add
            (Js.add (Int (Draw.d12 w))
               (Number (Js.or (default VUndefined (Actor.skill this skillKey))
                          (VNumber (Int 0)))))
            (Int (if umbral then Draw.d6 w else Js.Math_ceil_half (Draw.d6 w))))
         (Int m)).
Proof.
  intros Hcfg.
  destruct (executeSkillRoll_configured this skillKey skillConfig umbral m w Hcfg)
    as (total & chat & -> & Hd6 & ->).
  by rewrite Hd6.
Qed.


(** A skill the sheet has no rating for, or a rating that is 0, null, NaN,
    false or the empty string, counts for 0 in the total. *)
Theorem executeSkillRoll_unrated (this : Actor.t) (skillKey : string)
    (skillConfig : SkillConfig.t) (umbral : bool) (m : Z) (w : Draw.t) :
  Contrato.skills CONFIG !! skillKey = Some skillConfig →
  Js.truthy (default VUndefined (Actor.skill this skillKey)) = false →
  (executeSkillRoll this skillKey umbral m w).2
  = Some (Int (Draw.d12 w
               + (if umbral then Draw.d6 w else Js.Math_ceil_half (Draw.d6 w))
               + m)).
Proof.
  intros Hcfg Hfalsy.
  rewrite (executeSkillRoll_total _ _ skillConfig) by done.
  unfold Js.or. rewrite Hfalsy. simpl. do 2 f_equal. lia.
Qed.

(** ** Runs of rolls *)



(** ** Edits on the sheet *)

Lemma settled_bestialidade_whole (this : Actor.t) (h : Z) :
  read_humanidade this = Int h →
  h ≤ 12 →
  settled_bestialidade this = Int (12 - h).
Proof.
  intros Hrh Hle. unfold settled_bestialidade. rewrite Hrh.
  destruct (Number (Js.nullish (Actor.bestialidade this) (VNumber (Int 6))))
    as [b|]; simpl; [|f_equal; lia].
  case_bool_decide; f_equal; lia.
Qed.

(** What is written in the input of an attribute, read as a number, with 0
    for what does not read as one. *)
Lemma attribute_change_eq (now : Z) (this : Actor.t) (attr input : string) :
  attribute_change now this attr input
  = update_attribute now this attr
      (match StringToNumber input with NaN => Int 0 | Int z => Int z end).
Proof. unfold attribute_change. simpl. by destruct (StringToNumber input). Qed.



(** An input that does not read as a number is stored as 0, never as NaN:
    typed as corruption it gives corruption 0 with penalty 0 and frequency
    none, and typed as humanity it gives humanity 0 and bestiality 12. *)
Theorem attribute_change_not_a_number (now : Z) (this : Actor.t) (input : string) :
  StringToNumber input = NaN →
  let corrupted := (attribute_change now this "mortalidade" input).1 in
  let humbled := (attribute_change now this "humanidade" input).1 in
  (Actor.mortalidade corrupted = VNumber (Int 0)
   ∧ Actor.derived corrupted = Some (Mortalidade.mk 0 none))
  ∧ (Actor.humanidade humbled = VNumber (Int 0)
     ∧ Actor.bestialidade humbled = VNumber (Int 12)).
Proof.
  intros Hinput. cbv zeta. rewrite !attribute_change_eq, Hinput.
  unfold update_attribute.
  rewrite !(decide_False (P := "mortalidade" = "humanidade")) by discriminate.
  rewrite !(decide_False (P := "mortalidade" = "bestialidade")) by discriminate.
  rewrite !(decide_True (P := "mortalidade" = "mortalidade")) by reflexivity.
  rewrite !(decide_True (P := "humanidade" = "humanidade")) by reflexivity.
  rewrite prepareDerivedData_mortalidade, prepareDerivedData_derived,
    prepareDerivedData_humanidade, prepareDerivedData_bestialidade.
  split; [by split|].
  split; [reflexivity|].
  match goal with
  | |- context [settled_bestialidade ?a] =>
      assert (read_humanidade a = Int 0) as Hrh by reflexivity;
      rewrite (settled_bestialidade_whole a 0 Hrh ltac:(lia))
  end.
  reflexivity.
Qed.

(** On a settled sheet, typing a corruption touches neither humanity nor
    bestiality nor the pool nor the ratings: it writes the corruption, read
    with 0 for what is not a number. *)
Theorem attribute_change_mortalidade (now : Z) (this : Actor.t) (input : string) :
  settled this →
  let this' := (attribute_change now this "mortalidade" input).1 in
  Actor.humanidade this' = Actor.humanidade this
  ∧ Actor.bestialidade this' = Actor.bestialidade this
  ∧ Actor.current this' = Actor.current this
  ∧ Actor.max this' = Actor.max this
  ∧ System.skills (Actor.system this') = System.skills (Actor.system this)
  ∧ Actor.mortalidade this'
    = VNumber (match StringToNumber input with NaN => Int 0 | Int z => Int z end).
Proof.
  intros Hs. cbv zeta. rewrite attribute_change_eq.
  apply settled_iff in Hs as [Hsys _].
  unfold update_attribute.
  rewrite !(decide_False (P := "mortalidade" = "humanidade")) by discriminate.
  rewrite !(decide_False (P := "mortalidade" = "bestialidade")) by discriminate.
  rewrite !(decide_True (P := "mortalidade" = "mortalidade")) by reflexivity.
  rewrite prepareDerivedData_humanidade, prepareDerivedData_bestialidade,
    prepareDerivedData_current, prepareDerivedData_max, prepareDerivedData_mortalidade,
    prepareDerivedData_system.
  match goal with
  | |- context [settled_bestialidade ?a] =>
      change (read_humanidade a) with (read_humanidade this);
      change (settled_bestialidade a) with (settled_bestialidade this);
      change (settled_current a) with (settled_current this)
  end.
  pose proof (prepareDerivedData_humanidade 0 this) as Hh.
  pose proof (prepareDerivedData_bestialidade 0 this) as Hb.
  pose proof (prepareDerivedData_current 0 this) as Hc.
  pose proof (prepareDerivedData_max 0 this) as Hm.
  unfold Actor.humanidade, Actor.bestialidade, Actor.current, Actor.max in *.
  rewrite <- Hsys in Hh, Hb, Hc, Hm.
  rewrite Hh, Hb, Hc, Hm.
  by destruct (StringToNumber input).
Qed.

(** ** Items *)

Lemma or_or (v d : jsval) : Js.or (Js.or v d) d = Js.or v d.
Proof.
  unfold Js.or. destruct (Js.truthy v) eqn:Hv; [by rewrite Hv|].
  by destruct (Js.truthy d).
Qed.

Lemma or_truthy (v d : jsval) : Js.truthy v = true → Js.or v d = v.
Proof. unfold Js.or. by intros ->. Qed.

Lemma get_insert (data : gmap string jsval) (key : string) (v : jsval) :
  Item.get (<[key := v]> data) key = v.
Proof. unfold Item.get. by rewrite lookup_insert_eq. Qed.

Lemma get_insert_ne (data : gmap string jsval) (key key' : string) (v : jsval) :
  key ≠ key' → Item.get (<[key := v]> data) key' = Item.get data key'.
Proof. intros Hne. unfold Item.get. by rewrite lookup_insert_ne. Qed.

(** What [prepareData] leaves under each key. *)
Lemma prepareData_lookup (this : Item.t) (key : string) :
  Item.system (Item.prepareData this) !! key =
    if decide (key = "bonus" ∧ Item.type this = "advantage") then
      Some (Js.or (Item.get (Item.system this) "bonus") (VString ""))
    else if decide (key = "cost" ∧ Item.type this = "power") then
      Some (Js.or (Item.get (Item.system this) "cost") (VNumber (Int 0)))
    else if decide (key = "activation" ∧ Item.type this = "power") then
      Some (Js.or (Item.get (Item.system this) "activation") (VString "ação"))
    else if decide (key = "description") then
      Some (Js.or (Item.get (Item.system this) "description") (VString ""))
    else if decide (key = "name") then Some (VString (Item.name this))
    else if decide (key = "type") then Some (VString (Item.type this))
    else Item.system this !! key.
Proof.
  unfold Item.prepareData. simpl.
  destruct (decide (Item.type this = "advantage")) as [Hadv|Hadv];
    destruct (decide (Item.type this = "power")) as [Hpow|Hpow];
    try (rewrite Hadv in Hpow; discriminate);
    repeat (rewrite ?get_insert, ?get_insert_ne by discriminate);
    repeat case_decide; destruct_and?; subst; try done; try tauto;
    repeat (rewrite ?lookup_insert_eq;
            rewrite ?lookup_insert_ne by (intros ?; subst; first [congruence | tauto]));
    try done; try tauto.
Qed.

Lemma item_eq (i j : Item.t) :
  Item.type i = Item.type j → Item.name i = Item.name j →
  Item.system i = Item.system j → i = j.
Proof. destruct i, j. simpl. congruence. Qed.

(** Preparing an item twice is preparing it once. *)
Theorem prepareData_idempotent (this : Item.t) :
  Item.prepareData (Item.prepareData this) = Item.prepareData this.
Proof.
  apply item_eq; [reflexivity | reflexivity |].
  apply map_eq. intros key.
  rewrite (prepareData_lookup (Item.prepareData this)).
  unfold Item.get. rewrite !prepareData_lookup.
  change (Item.type (Item.prepareData this)) with (Item.type this).
  change (Item.name (Item.prepareData this)) with (Item.name this).
  repeat case_decide; destruct_and?; subst; try done; try tauto;
    try (exfalso; intuition congruence);
    simpl; by rewrite or_or.
Qed.

(** After a preparation an item has its own type and name in its data and
    a description that is true for [||] or the empty string; a power has an
    activation that is true for [||] and a cost that is true for [||] or 0;
    an advantage has a bonus that is true for [||] or the empty string.
    None of them is left undefined, null, NaN or false. *)
Theorem prepareData_defaults (this : Item.t) :
  let data := Item.system (Item.prepareData this) in
  Item.get data "type" = VString (Item.type this)
  ∧ Item.get data "name" = VString (Item.name this)
  ∧ (Js.truthy (Item.get data "description") = true
     ∨ Item.get data "description" = VString "")
  ∧ (Item.type this = "power" →
     Js.truthy (Item.get data "activation") = true
     ∧ (Js.truthy (Item.get data "cost") = true
        ∨ Item.get data "cost" = VNumber (Int 0)))
  ∧ (Item.type this = "advantage" →
     Js.truthy (Item.get data "bonus") = true
     ∨ Item.get data "bonus" = VString "").
Proof.
  assert (∀ v d, Js.truthy (Js.or v d) = true ∨ Js.or v d = d) as Hor.
  { intros v d. unfold Js.or. destruct (Js.truthy v) eqn:Hv; [by left | by right]. }
  cbv zeta. unfold Item.get. rewrite !prepareData_lookup.
  split; [|split; [|split; [|split]]].
  - repeat case_decide; destruct_and?; done.
  - repeat case_decide; destruct_and?; done.
  - repeat case_decide; destruct_and?; try done. simpl. apply Hor.
  - intros Hpow. split.
    + repeat case_decide; destruct_and?; try done; try tauto. simpl.
      unfold Js.or.
      by destruct (Js.truthy (Item.get (Item.system this) "activation")) eqn:Hv.
    + repeat case_decide; destruct_and?; try done; try tauto. simpl. apply Hor.
  - intros Hadv. repeat case_decide; destruct_and?; try done; try tauto.
    simpl. apply Hor.
Qed.

(** A preparation writes over nothing the item was given, its type and name
    apart: a value that is true for [||] stays under its key, a key other
    than description, activation, cost and bonus keeps what it had or stays
    absent, and an item that is neither a power nor an advantage gets no
    activation, cost or bonus. *)
Theorem prepareData_keeps (this : Item.t) (key : string) :
  key ≠ "type" →
  key ≠ "name" →
  let data := Item.system (Item.prepareData this) in
  (∀ v, Item.system this !! key = Some v → Js.truthy v = true →
        data !! key = Some v)
  ∧ (key ∉ ["description"; "activation"; "cost"; "bonus"] →
     data !! key = Item.system this !! key)
  ∧ (Item.type this ≠ "power" → Item.type this ≠ "advantage" →
     key ≠ "description" → data !! key = Item.system this !! key).
Proof.
  intros Htype Hname. cbv zeta. rewrite prepareData_lookup.
  split; [|split].
  - intros v Hv Htrue. unfold Item.get.
    repeat case_decide; destruct_and?; subst; try done;
      rewrite Hv; simpl; by rewrite or_truthy.
  - intros Hnot. repeat case_decide; destruct_and?; subst; try done;
      exfalso; apply Hnot; set_solver.
  - intros Hpow Hadv Hdesc. repeat case_decide; destruct_and?; subst; done.
Qed.

End ContractoActor.

(** ** The methods at concrete sheets *)

Example Math_ceil_half_d6 :
  Js.Math_ceil_half <$> [1; 2; 3; 4; 5; 6] = [1; 1; 2; 2; 3; 3].
Proof. reflexivity. Qed.

(** A new sheet: the pool is filled to bestiality + 1 and the frequency none
    is recorded, with its entry and no reminder. *)
Example prepareDerivedData_first :
  prepareDerivedData no_strings None 0 (sheet 6 6 0 VUndefined)
  = (prepared_sheet 6 6 0 7, []).
Proof. vm_compute. reflexivity. Qed.

(** Attributes never set read as 6, 6 and 0. *)
Example prepareDerivedData_defaults :
  let this' :=
    (prepareDerivedData no_strings None 0
       (Actor.mk
          (System.mk (Attributes.mk VUndefined VUndefined VUndefined) ∅
             (ReservaDados.mk VUndefined VUndefined) None)
          (Flags.mk None []))).1 in
  Actor.humanidade this' = VNumber (Int 6)
  ∧ Actor.bestialidade this' = VNumber (Int 6)
  ∧ Actor.mortalidade this' = VNumber (Int 0)
  ∧ Actor.current this' = VNumber (Int 7).
Proof. repeat split. Qed.

(** Corruption 7 on a sheet that recorded none: the frequency twice-weekly
    is recorded and, the calendar being active, a reminder is asked for
    three days from the current date. *)
Example prepareDerivedData_reminder :
  let calendar :=
    SimpleCalendar.mk true
      (Some (SimpleCalendar.mk_api (Some (Date.mk 2024 5 10)) false)) in
  let result :=
    prepareDerivedData no_strings (Some calendar) 50 (prepared_sheet 6 6 7 7) in
  Actor.derived result.1 = Some (Mortalidade.mk 2 twice_weekly)
  ∧ Actor.history result.1
    = [MortalidadeEntry 0 none (Int 7); MortalidadeEntry 50 twice_weekly (Int 7)]
  ∧ result.2 = [CalendarAddEvent (Date.mk 2024 5 13) twice_weekly].
Proof. repeat split. Qed.

(** A key that is not configured, and an empty pool. *)
Example rollSkill_unknown :
  rollSkill no_strings CONFIG_Contrato None (prepared_sheet 6 6 0 7) "voar"
    (Some (Answer.mk false 0)) (Draw.mk 5 7 10 20)
  = (prepared_sheet 6 6 0 7, [NotificationsWarn (UnknownSkill "voar")], None).
Proof. vm_compute. reflexivity. Qed.

(** A key that is not configured but names what every object inherits. *)
Example rollSkill_constructor :
  rollSkill no_strings CONFIG_Contrato None (prepared_sheet 6 6 0 7) "constructor"
    (Some (Answer.mk false 0)) (Draw.mk 5 7 10 20)
  = (set_history (spent no_strings (prepared_sheet 6 6 0 7))
       [MortalidadeEntry 0 none (Int 0);
        RollEntry 20 "constructor" NaN (Int 6) (Int 6) (VNumber (Int 0))],
     [DialogRender "undefined";
      ChatMessageCreate (ChatMessage.mk "undefined" 7 NaN false 3 0 NaN)],
     Some NaN).
Proof. vm_compute. reflexivity. Qed.

Example rollSkill_empty_pool :
  rollSkill no_strings CONFIG_Contrato None (prepared_sheet 6 6 0 0) "briga"
    (Some (Answer.mk true 0)) (Draw.mk 5 7 10 20)
  = (prepared_sheet 6 6 0 0,
     [NotificationsWarn (NoResourceAvailable "CONTRATO.SKILLS.BRIGA")], None).
Proof. vm_compute. reflexivity. Qed.

(** A pool of 1 is at 0 after a roll, whichever button is pressed. *)
Example rollSkill_last_die :
  Actor.current
    (rollSkill no_strings CONFIG_Contrato None (prepared_sheet 6 6 0 1) "briga"
       (Some (Answer.mk false 0)) (Draw.mk 5 7 10 20)).1.1
  = VNumber (Int 0)
  ∧ Actor.current
      (rollSkill no_strings CONFIG_Contrato None (prepared_sheet 6 6 0 1) "briga"
         (Some (Answer.mk true 0)) (Draw.mk 5 7 10 20)).1.1
    = VNumber (Int 0).
Proof. split; vm_compute; reflexivity. Qed.

(** ** The properties at concrete sheets *)

(** The boundary values of the table: corruption 2, 3, 5, 6, 8, 9, 11, 12. *)
Lemma prepareDerivedData_tier_boundaries :
  Forall
    (λ '(mort, penalty, frequency),
       Actor.mortalidade (sheet 6 6 mort VUndefined) = VNumber (Int mort)
       ∧ corruption_table mort penalty frequency
       ∧ Actor.derived
           (prepareDerivedData no_strings None 0 (sheet 6 6 mort VUndefined)).1
         = Some (Mortalidade.mk penalty frequency))
    [ (2, 0, none); (3, 1, weekly); (5, 1, weekly); (6, 2, twice_weekly);
      (8, 2, twice_weekly); (9, 3, daily); (11, 3, daily); (12, 4, constant) ].
Proof.
  repeat first [apply Forall_nil_2 | apply Forall_cons; split];
    (split; [reflexivity|]);
    match goal with
    | |- corruption_table ?mort ?penalty ?frequency ∧ _ =>
        assert (corruption_table mort penalty frequency) as Hrow
          by (constructor; lia);
        split; [exact Hrow|];
        exact (prepareDerivedData_tier no_strings None 0
                 (sheet 6 6 mort VUndefined) mort penalty frequency eq_refl Hrow)
    end.
Defined.

(** A corruption of -4 is below the first threshold. *)
Lemma prepareDerivedData_below_three_negative :
  Actor.mortalidade (sheet 6 6 (-4) VUndefined) = VNumber (Int (-4))
  ∧ -4 < 3
  ∧ Actor.derived (prepareDerivedData no_strings None 0 (sheet 6 6 (-4) VUndefined)).1
    = Some (Mortalidade.mk 0 none).
Proof.
  split; [reflexivity|]. split; [lia|].
  apply (prepareDerivedData_below_three no_strings None 0
           (sheet 6 6 (-4) VUndefined) (-4)); [reflexivity | lia].
Defined.

(** A stored pool of -5 stays at -5: the preparation caps the pool from
    above only. *)
Lemma prepareDerivedData_negative_reserve :
  Actor.current
    (prepareDerivedData no_strings None 0 (sheet 6 6 0 (VNumber (Int (-5))))).1
  = VNumber (Int (-5))
  ∧ ¬ reserve_within_bounds
        (prepareDerivedData no_strings None 0 (sheet 6 6 0 (VNumber (Int (-5))))).1.
Proof.
  split; [reflexivity|]. unfold reserve_within_bounds. simpl. lia.
Qed.

(** Humanity 6, bestiality 6, rating 3, sacred, d6 = 5, d12 = 7, modifier 0:
    the total is 13, the pool goes from 7 to 6 and bestiality is still 6. *)
Lemma executeSkillRoll_sagrado_scenario :
  Contrato.skills CONFIG_Contrato !! "briga"
  = Some (SkillConfig.mk "CONTRATO.SKILLS.BRIGA" physical)
  ∧ Actor.skill (prepared_sheet 6 6 0 7) "briga" = Some (VNumber (Int 3))
  ∧ Actor.current (prepared_sheet 6 6 0 7) = VNumber (Int 7)
  ∧ 1 ≤ 5 ≤ 6
  ∧ ∃ this' chat,
      executeSkillRoll no_strings CONFIG_Contrato None (prepared_sheet 6 6 0 7)
        "briga" false 0 (Draw.mk 5 7 10 20)
      = (this', [ChatMessageCreate chat], Some (Int 13))
      ∧ Actor.current this' = VNumber (Int 6)
      ∧ Actor.bestialidade this' = VNumber (Int 6)
      ∧ ChatMessage.d6Value chat = 3.
Proof.
  assert (Contrato.skills CONFIG_Contrato !! "briga"
          = Some (SkillConfig.mk "CONTRATO.SKILLS.BRIGA" physical)) as Hcfg
    by (vm_compute; reflexivity).
  assert (Actor.skill (prepared_sheet 6 6 0 7) "briga" = Some (VNumber (Int 3)))
    as Hskill by (vm_compute; reflexivity).
  assert (1 ≤ 5 ≤ 6) as Hd6 by lia.
  repeat (split; [done|]).
  destruct (executeSkillRoll_sagrado no_strings CONFIG_Contrato None
              (prepared_sheet 6 6 0 7) "briga" _ 3 7 0 (Draw.mk 5 7 10 20)
              Hcfg Hskill eq_refl Hd6)
    as (this' & chat & Heq & Hcur & _ & Hb & Hchat & _).
  exists this', chat. repeat split; assumption.
Defined.


(** The history of that umbral roll: one entry more, a roll entry. *)
Lemma executeSkillRoll_history_scenario :
  Contrato.skills CONFIG_Contrato !! "briga"
  = Some (SkillConfig.mk "CONTRATO.SKILLS.BRIGA" physical)
  ∧ ∃ this' effects total,
      executeSkillRoll no_strings CONFIG_Contrato None (prepared_sheet 6 6 0 7)
        "briga" true (-1) (Draw.mk 4 2 10 20)
      = (this', effects, Some total)
      ∧ Actor.history this' =
          Actor.history (prepared_sheet 6 6 0 7) ++
          [RollEntry 20 "briga" total (Int 6) (Int 6) (Actor.mortalidade this')].
Proof.
  assert (Contrato.skills CONFIG_Contrato !! "briga"
          = Some (SkillConfig.mk "CONTRATO.SKILLS.BRIGA" physical)) as Hcfg
    by (vm_compute; reflexivity).
  split; [exact Hcfg|].
  exact (executeSkillRoll_history no_strings CONFIG_Contrato None
           (prepared_sheet 6 6 0 7) "briga" _ true (-1) (Draw.mk 4 2 10 20) Hcfg).
Defined.

(** After that umbral roll the actor has humanity 5 and bestiality 7, and
    the roll entry holds 6 and 6: the snapshot is not the one of the moment
    the entry is appended. *)
Lemma executeSkillRoll_snapshot_stale :
  let this' :=
    (executeSkillRoll no_strings CONFIG_Contrato None (prepared_sheet 6 6 0 7)
       "briga" true (-1) (Draw.mk 4 2 10 20)).1.1 in
  Actor.humanidade this' = VNumber (Int 5)
  ∧ Actor.bestialidade this' = VNumber (Int 7)
  ∧ last (Actor.history this')
    = Some (RollEntry 20 "briga" (Int 8) (Int 6) (Int 6) (VNumber (Int 0)))
  ∧ ¬ snapshot_at_append no_strings this'.
Proof.
  cbv zeta.
  assert ((executeSkillRoll no_strings CONFIG_Contrato None (prepared_sheet 6 6 0 7)
             "briga" true (-1) (Draw.mk 4 2 10 20)).1.1
          = Actor.mk
              (System.mk
                 (Attributes.mk (VNumber (Int 5)) (VNumber (Int 7)) (VNumber (Int 0)))
                 {[ "briga" := VNumber (Int 3) ]}
                 (ReservaDados.mk (VNumber (Int 6)) (VNumber (Int 8)))
                 (Some (Mortalidade.mk 0 none)))
              (Flags.mk (Some none)
                 [MortalidadeEntry 0 none (Int 0);
                  RollEntry 20 "briga" (Int 8) (Int 6) (Int 6) (VNumber (Int 0))]))
    as -> by (vm_compute; reflexivity).
  repeat split; try reflexivity.
  intros (timestamp & skill & total & Hlast). simpl in Hlast. discriminate.
Qed.

(** The key "constructor" on a sheet with 7 dice in its pool, the sacred
    button pressed: the roll is resolved, with a total of NaN and the pool
    at 6. *)
Lemma rollSkill_inherited_key_constructor :
  Contrato.skills CONFIG_Contrato !! "constructor" = None
  ∧ Js.inherited "constructor" = true
  ∧ Actor.current (prepared_sheet 6 6 0 7) = VNumber (Int 7)
  ∧ 0 < 7
  ∧ ∃ this' asked chat total,
      rollSkill no_strings CONFIG_Contrato None (prepared_sheet 6 6 0 7)
        "constructor" (Some (Answer.mk false 0)) (Draw.mk 5 7 10 20)
      = (this', DialogRender "undefined" :: asked ++ [ChatMessageCreate chat],
         Some total)
      ∧ total = NaN
      ∧ Actor.current this' = VNumber (Int 6).
Proof.
  assert (Contrato.skills CONFIG_Contrato !! "constructor" = None) as Hcfg
    by (vm_compute; reflexivity).
  split; [exact Hcfg|]. split; [reflexivity|]. split; [reflexivity|].
  split; [lia|].
  destruct (rollSkill_inherited_key no_strings CONFIG_Contrato None
              (prepared_sheet 6 6 0 7) "constructor" 7 (Answer.mk false 0)
              (Draw.mk 5 7 10 20) Hcfg eq_refl eq_refl ltac:(lia))
    as (this' & asked & chat & total & Heq & _ & _ & _ & _ & Hcur & Hnan).
  exists this', asked, chat, total.
  split; [exact Heq|].
  split; [apply Hnan; vm_compute; reflexivity | exact (Hcur eq_refl)].
Defined.

(** ** More properties at concrete sheets *)


(** A humanity stored as NaN, with a pool of 40. *)
Lemma prepareDerivedData_NaN_pool :
  let this :=
    Actor.mk
      (System.mk (Attributes.mk (VNumber NaN) (VNumber (Int 6)) (VNumber (Int 0)))
         ∅ (ReservaDados.mk (VNumber (Int 40)) VUndefined) None)
      (Flags.mk None []) in
  read_humanidade no_strings this = NaN
  ∧ Actor.max (prepareDerivedData no_strings None 0 this).1 = VNumber NaN
  ∧ Actor.current (prepareDerivedData no_strings None 0 this).1 = VNumber (Int 40).
Proof.
  cbv zeta. split; [reflexivity|].
  destruct (prepareDerivedData_NaN no_strings None 0
              (Actor.mk
                 (System.mk
                    (Attributes.mk (VNumber NaN) (VNumber (Int 6)) (VNumber (Int 0)))
                    ∅ (ReservaDados.mk (VNumber (Int 40)) VUndefined) None)
                 (Flags.mk None [])) eq_refl)
    as (_ & _ & Hmax & Hcur & _).
  split; [exact Hmax | exact (Hcur (Int 40) eq_refl)].
Defined.

(** No module installed. *)
Lemma scheduleHuntEvent_unavailable_none :
  (@None SimpleCalendar.t = None
   ∨ (∃ scModule, None = Some scModule
        ∧ (SimpleCalendar.active scModule = false
           ∨ SimpleCalendar.api scModule = None)))
  ∧ scheduleHuntEvent None daily = [ConsoleWarn CalendarNotFound].
Proof.
  assert (@None SimpleCalendar.t = None
          ∨ (∃ scModule, None = Some scModule
               ∧ (SimpleCalendar.active scModule = false
                  ∨ SimpleCalendar.api scModule = None))) as Hnone
    by (left; reflexivity).
  split; [exact Hnone|].
  exact (scheduleHuntEvent_unavailable None daily Hnone).
Defined.

(** An active module on 10/5/2024 and a weekly hunt: the event is on the
    17th. *)
Lemma scheduleHuntEvent_available_weekly :
  let api := SimpleCalendar.mk_api (Some (Date.mk 2024 5 10)) false in
  let calendar := Some (SimpleCalendar.mk true (Some api)) in
  calendar = Some (SimpleCalendar.mk true (Some api))
  ∧ ∃ date,
      scheduleHuntEvent calendar weekly = [CalendarAddEvent date weekly]
      ∧ Date.day date = 17.
Proof.
  cbv zeta. split; [reflexivity|].
  destruct (scheduleHuntEvent_available
              (Some (SimpleCalendar.mk true
                       (Some (SimpleCalendar.mk_api (Some (Date.mk 2024 5 10)) false))))
              weekly (SimpleCalendar.mk_api (Some (Date.mk 2024 5 10)) false) eq_refl)
    as (date & Heq & _ & _ & _ & Hweekly & _).
  exists date. split; [exact Heq | exact (Hweekly eq_refl)].
Defined.


(** A sacred resolution on a key that is neither configured nor inherited:
    nothing returned, the pool from 7 to 6. *)
Lemma executeSkillRoll_unconfigured_voar :
  Contrato.skills CONFIG_Contrato !! "voar" = None
  ∧ Js.inherited "voar" = false
  ∧ Actor.current (prepared_sheet 6 6 0 7) = VNumber (Int 7)
  ∧ ∃ this' asked,
      executeSkillRoll no_strings CONFIG_Contrato None (prepared_sheet 6 6 0 7)
        "voar" false 0 (Draw.mk 5 7 10 20)
      = (this', asked, None)
      ∧ Actor.current this' = VNumber (Int 6).
Proof.
  assert (Contrato.skills CONFIG_Contrato !! "voar" = None) as Hcfg
    by (vm_compute; reflexivity).
  split; [exact Hcfg|]. split; [reflexivity|]. split; [reflexivity|].
  destruct (executeSkillRoll_unconfigured no_strings CONFIG_Contrato None
              (prepared_sheet 6 6 0 7) "voar" false 7 0 (Draw.mk 5 7 10 20)
              Hcfg eq_refl eq_refl)
    as (this' & asked & Heq & _ & _ & Hcur).
  exists this', asked. split; [exact Heq | exact (Hcur eq_refl)].
Defined.

(** From humanity 13 and bestiality 0, the pair the preparation cannot
    repair, an umbral roll gives 11 and 1. *)
Lemma executeSkillRoll_umbral_balances_13 :
  Contrato.skills CONFIG_Contrato !! "briga"
  = Some (SkillConfig.mk "CONTRATO.SKILLS.BRIGA" physical)
  ∧ Actor.bestialidade (sheet 13 0 0 (VNumber (Int 1))) = VNumber (Int 0)
  ∧ -1 ≤ 0
  ∧ balanced
      (executeSkillRoll no_strings CONFIG_Contrato None
         (sheet 13 0 0 (VNumber (Int 1))) "briga" true 0 (Draw.mk 4 2 10 20)).1.1.
Proof.
  assert (Contrato.skills CONFIG_Contrato !! "briga"
          = Some (SkillConfig.mk "CONTRATO.SKILLS.BRIGA" physical)) as Hcfg
    by (vm_compute; reflexivity).
  split; [exact Hcfg|]. split; [reflexivity|]. split; [lia|].
  destruct (executeSkillRoll_umbral_balances no_strings CONFIG_Contrato None
              (sheet 13 0 0 (VNumber (Int 1))) "briga" _ 0 0 (Draw.mk 4 2 10 20)
              Hcfg eq_refl ltac:(lia))
    as (Hbal & _).
  exact Hbal.
Defined.


(** The sheet has no rating for defesa: d12 = 7, d6 = 5 sacred, modifier
    -1 give 9. *)
Lemma executeSkillRoll_unrated_defesa :
  Contrato.skills CONFIG_Contrato !! "defesa"
  = Some (SkillConfig.mk "CONTRATO.SKILLS.DEFESA" combat)
  ∧ Js.truthy (default VUndefined (Actor.skill (prepared_sheet 6 6 0 7) "defesa"))
    = false
  ∧ (executeSkillRoll no_strings CONFIG_Contrato None (prepared_sheet 6 6 0 7)
       "defesa" false (-1) (Draw.mk 5 7 10 20)).2
    = Some (Int (7 + Js.Math_ceil_half 5 + -1)).
Proof.
  assert (Contrato.skills CONFIG_Contrato !! "defesa"
          = Some (SkillConfig.mk "CONTRATO.SKILLS.DEFESA" combat)) as Hcfg
    by (vm_compute; reflexivity).
  assert (Js.truthy (default VUndefined (Actor.skill (prepared_sheet 6 6 0 7) "defesa"))
          = false) as Hfalsy by (vm_compute; reflexivity).
  split; [exact Hcfg|]. split; [exact Hfalsy|].
  exact (executeSkillRoll_unrated no_strings CONFIG_Contrato None
           (prepared_sheet 6 6 0 7) "defesa" _ false (-1) (Draw.mk 5 7 10 20)
           Hcfg Hfalsy).
Defined.


(** After a sacred roll on the prepared sheet a preparation has nothing to
    do. *)
Lemma executeSkillRoll_settled_briga :
  Contrato.skills CONFIG_Contrato !! "briga"
  = Some (SkillConfig.mk "CONTRATO.SKILLS.BRIGA" physical)
  ∧ settled no_strings None (prepared_sheet 6 6 0 7)
  ∧ Actor.bestialidade (prepared_sheet 6 6 0 7) = VNumber (Int 6)
  ∧ Actor.current (prepared_sheet 6 6 0 7) = VNumber (Int 7)
  ∧ -1 ≤ 6
  ∧ settled no_strings None
      (executeSkillRoll no_strings CONFIG_Contrato None (prepared_sheet 6 6 0 7)
         "briga" false 0 (Draw.mk 5 7 10 20)).1.1.
Proof.
  assert (Contrato.skills CONFIG_Contrato !! "briga"
          = Some (SkillConfig.mk "CONTRATO.SKILLS.BRIGA" physical)) as Hcfg
    by (vm_compute; reflexivity).
  assert (settled no_strings None (prepared_sheet 6 6 0 7)) as Hs
    by (intros now; reflexivity).
  split; [exact Hcfg|]. split; [exact Hs|].
  split; [reflexivity|]. split; [reflexivity|]. split; [lia|].
  exact (executeSkillRoll_settled no_strings CONFIG_Contrato None
           (prepared_sheet 6 6 0 7) "briga" _ false 0 6 7 (Draw.mk 5 7 10 20)
           Hcfg Hs eq_refl eq_refl ltac:(lia)).
Defined.



(** Typing letters as humanity: the pair is 0 and 12. *)
Lemma attribute_change_not_a_number_letters :
  no_strings "seis" = NaN
  ∧ Actor.bestialidade
      (attribute_change no_strings None 0 (prepared_sheet 6 6 0 7)
         "humanidade" "seis").1
    = VNumber (Int 12).
Proof.
  split; [reflexivity|].
  destruct (attribute_change_not_a_number no_strings None 0
              (prepared_sheet 6 6 0 7) "seis" eq_refl)
    as [_ [_ Hb]].
  exact Hb.
Defined.

(** Typing a corruption on the prepared sheet leaves the pool at 7. *)
Lemma attribute_change_mortalidade_7 :
  settled no_strings None (prepared_sheet 6 6 0 7)
  ∧ Actor.current
      (attribute_change no_strings None 0 (prepared_sheet 6 6 0 7)
         "mortalidade" "sete").1
    = VNumber (Int 7).
Proof.
  assert (settled no_strings None (prepared_sheet 6 6 0 7)) as Hs
    by (intros now; reflexivity).
  split; [exact Hs|].
  destruct (attribute_change_mortalidade no_strings None 0
              (prepared_sheet 6 6 0 7) "sete" Hs)
    as (_ & _ & Hcur & _).
  exact Hcur.
Defined.

(** A piece of equipment with a weight and no description: the weight is
    kept, and no cost is added. *)
Lemma prepareData_keeps_weight :
  let item := Item.mk "equipment" "Lanterna" {[ "weight" := VNumber (Int 2) ]} in
  "weight" ≠ "type"
  ∧ "weight" ≠ "name"
  ∧ Item.system (Item.prepareData item) !! "weight" = Some (VNumber (Int 2)).
Proof.
  cbv zeta.
  assert ("weight" ≠ "type") as Htype by discriminate.
  assert ("weight" ≠ "name") as Hname by discriminate.
  split; [exact Htype|]. split; [exact Hname|].
  destruct (prepareData_keeps
              (Item.mk "equipment" "Lanterna" {[ "weight" := VNumber (Int 2) ]})
              "weight" Htype Hname)
    as (Hkeep & _).
  apply Hkeep; vm_compute; reflexivity.
Defined.
